(** * DAG_Streamlit: the session store and the validate/generate protocol of [app.py]

    The development embeds the stateful core of [src/app.py]:
    [init_session], [fetch_all_conversations], [load_conversation], and the
    two blocks of [main] that mutate [st.session_state] (the "Clear Current
    Chat" handler, lines 123-128, and the chat turn, lines 149-204).

    Python values are modelled as they reach the program: everything stored
    in [st.session_state] or decoded from a response body is a [pyval].
    Effects (the session store, the HTTP calls, the widgets written to the
    page, the clock and the uuid generator) are threaded through a small
    state-and-exception monad. *)

From Stdlib Require Import ZArith Floats.SpecFloat.
From stdpp Require Import base strings gmap list pretty.

Set Warnings "-register-all".

(** ** Python values and the primitives the program applies to them *)

Module Py.

(** What [json.loads] can produce, which is also everything the program ever
    stores: [None], [bool], [int], [float], [str], [list], [dict] with string
    keys. *)
Inductive pyval :=
| PNone
| PBool (b : bool)
| PInt (n : Z)
| PFloat (f : spec_float)
| PStr (s : string)
| PList (l : list pyval)
| PDict (d : gmap string pyval).

(** The exceptions the modelled code can meet. [RequestException] stands for
    any failure raised by [requests.get] / [requests.post];
    [JSONDecodeError] for [response.json()] on an undecodable body. *)
Inductive exn :=
| KeyError (key : string)
| TypeError
| AttributeError
| RequestException
| JSONDecodeError.

Inductive result (A : Type) :=
| Ok (a : A)
| Raise (e : exn).
Arguments Ok {A} a.
Arguments Raise {A} e.

(** [bool(v)]: Python truthiness. *)
Definition truthy (v : pyval) : bool :=
  match v with
  | PNone => false
  | PBool b => b
  | PInt n => negb (n =? 0)%Z
  | PFloat (S754_zero _) => false
  | PFloat _ => true
  | PStr EmptyString => false
  | PStr _ => true
  | PList [] => false
  | PList _ => true
  | PDict d => match map_to_list d with [] => false | _ => true end
  end.

(** [v.get(k)]: only a dict has [get]; a missing key gives [None]. *)
Definition dict_get (v : pyval) (k : string) : result pyval :=
  match v with
  | PDict d => Ok (default PNone (d !! k))
  | _ => Raise AttributeError
  end.

(** [v[k]] for a string key [k]. *)
Definition subscript (v : pyval) (k : string) : result pyval :=
  match v with
  | PDict d => match d !! k with Some x => Ok x | None => Raise (KeyError k) end
  | _ => Raise TypeError
  end.

(** [v == s] for a string literal [s]. *)
Definition eq_str (v : pyval) (s : string) : bool :=
  match v with
  | PStr t => bool_decide (t = s)
  | _ => false
  end.

(** [hay.startswith(needle)] *)
Fixpoint starts_with (needle hay : string) : bool :=
  match needle, hay with
  | EmptyString, _ => true
  | String a needle', String b hay' => Ascii.eqb a b && starts_with needle' hay'
  | String _ _, EmptyString => false
  end.

(** [needle in hay] on strings: [needle] occurs as a contiguous substring.
    Strings are byte sequences here; for the ASCII marker the program looks
    for, occurrence in the UTF-8 bytes and in the code points coincide. *)
Fixpoint str_contains (needle hay : string) : bool :=
  starts_with needle hay ||
  match hay with
  | EmptyString => false
  | String _ rest => str_contains needle rest
  end.

(** [needle in v] for a string [needle]: substring test on a [str], element
    test on a [list], key test on a [dict]; the other values are not
    iterable. *)
Definition py_in (needle : string) (v : pyval) : result bool :=
  match v with
  | PStr s => Ok (str_contains needle s)
  | PList l => Ok (existsb (fun x => eq_str x needle) l)
  | PDict d => Ok (bool_decide (is_Some (d !! needle)))
  | _ => Raise TypeError
  end.

Fixpoint str_chars (s : string) : list pyval :=
  match s with
  | EmptyString => []
  | String c rest => PStr (String c EmptyString) :: str_chars rest
  end.

(** [reversed(v)], as the list of items the [for] loop will visit (Python
    3.8 and later, where a dict is reversible and yields its keys).  The
    keys of a dict come in the order of the map, not in insertion order, and
    the items of a [str] are its bytes rather than its code points: either
    way every item is a [str], which is all the loop of [load_conversation]
    can observe before it raises on the first of them. *)
Definition py_reversed (v : pyval) : result (list pyval) :=
  match v with
  | PList l => Ok (reverse l)
  | PDict d => Ok (reverse (PStr <$> (map_to_list d).*1))
  | PStr s => Ok (reverse (str_chars s))
  | _ => Raise TypeError
  end.

(** [v.append]: the bound method, which only a list has. *)
Definition bound_append (v : pyval) : result (pyval → pyval) :=
  match v with
  | PList l => Ok (λ x, PList (l ++ [x]))
  | _ => Raise AttributeError
  end.

End Py.
Export Py.

(** ** The world the script runs in *)

Module World.

Record response := Response {
  status_code : Z;
  (** what [response.json()] returns; [None] when the body does not decode *)
  json_body : option pyval
}.

Inductive http_result :=
| ConnectionFailed
| Responded (r : response).

(** The four remote calls of the program. *)
Inductive request :=
| GET_conversations
| GET_chat_history (session_id : pyval)
| POST_validate_input (input : string)
| POST_generate_dag (input : string) (session_id : pyval).

(** What the script writes to the page. *)
Inductive ui_event :=
| st_chat_message (role : string)
| st_write (text : string)
| st_success (text : string)
| st_warning (text : string)
| st_error (text : string)
| st_error_exc (prefix : string) (e : exn)
| st_code (body : pyval).

(** Everything outside the script: the backend, the uuid generator, the
    clock, and Python's [str()] as used by an f-string on a value that is
    not already a [str]. *)
Record Env := {
  http : request → http_result;
  uuid4_str : nat → string;
  now_isoformat : nat → string;
  py_str : pyval → string
}.

Record World := MkWorld {
  session_state : gmap string pyval;
  page : list ui_event;
  calls : list request;
  uuid_draws : nat;
  clock_reads : nat
}.

End World.
Export World.

(** ** A state-and-exception monad over [World] *)

Module Script.

Definition M (A : Type) : Type := World → result A * World.

Definition ret {A} (a : A) : M A := λ w, (Ok a, w).

Definition bind {A B} (m : M A) (k : A → M B) : M B :=
  λ w, match m w with
       | (Ok a, w') => k a w'
       | (Raise e, w') => (Raise e, w')
       end.

#[global] Instance M_ret : MRet M := @ret.
#[global] Instance M_bind : MBind M := λ A B k m, bind m k.

Definition raise {A} (e : exn) : M A := λ w, (Raise e, w).

(** [try: body except Exception as e: handler e].  The state reached when
    the exception is raised is the state the handler starts from. *)
Definition try_except (body : M unit) (handler : exn → M unit) : M unit :=
  λ w, match body w with
       | (Ok a, w') => (Ok a, w')
       | (Raise e, w') => handler e w'
       end.

Definition lift {A} (r : result A) : M A := λ w, (r, w).

(** [st.session_state.k] read: a missing key is an [AttributeError]. *)
Definition get_attr (k : string) : M pyval :=
  λ w, match session_state w !! k with
       | Some v => (Ok v, w)
       | None => (Raise AttributeError, w)
       end.

Definition put_state (ss : gmap string pyval) (w : World) : World :=
  MkWorld ss (page w) (calls w) (uuid_draws w) (clock_reads w).

(** [st.session_state.k = v] *)
Definition set_attr (k : string) (v : pyval) : M unit :=
  λ w, (Ok (), put_state (<[k := v]> (session_state w)) w).

(** [k in st.session_state] *)
Definition has_key (k : string) : M bool :=
  λ w, (Ok (bool_decide (is_Some (session_state w !! k))), w).

Definition emit (ev : ui_event) : M unit :=
  λ w, (Ok (), MkWorld (session_state w) (page w ++ [ev]) (calls w)
                       (uuid_draws w) (clock_reads w)).

Section WithEnv.
Context (E : Env).

(** [requests.get] / [requests.post]: the call is recorded, then either a
    response comes back or the library raises. *)
Definition send (r : request) : M response :=
  λ w, let w' := MkWorld (session_state w) (page w) (calls w ++ [r])
                         (uuid_draws w) (clock_reads w) in
       match http E r with
       | ConnectionFailed => (Raise RequestException, w')
       | Responded resp => (Ok resp, w')
       end.

(** [response.json()] *)
Definition json (resp : response) : M pyval :=
  match json_body resp with
  | Some v => ret v
  | None => raise JSONDecodeError
  end.

(** [str(uuid.uuid4())] *)
Definition uuid4 : M pyval :=
  λ w, (Ok (PStr (uuid4_str E (uuid_draws w))),
        MkWorld (session_state w) (page w) (calls w)
                (S (uuid_draws w)) (clock_reads w)).

(** [datetime.now().isoformat()] *)
Definition now : M pyval :=
  λ w, (Ok (PStr (now_isoformat E (clock_reads w))),
        MkWorld (session_state w) (page w) (calls w)
                (uuid_draws w) (S (clock_reads w))).

(** [f"{v}"] *)
Definition fstring (v : pyval) : string :=
  match v with
  | PStr s => s
  | _ => py_str E v
  end.

End WithEnv.

End Script.
Export Script.

(** ** The program *)

Module App.

Section WithEnv.
Context (E : Env).

(** [init_session], lines 16-27. *)
Definition init_session : M unit :=
  b ← has_key "session_id";
  (if negb b then u ← uuid4 E; set_attr "session_id" u else ret ());;
  b ← has_key "messages";
  (if negb b then set_attr "messages" (PList []) else ret ());;
  b ← has_key "history";
  (if negb b then set_attr "history" (PList []) else ret ());;
  b ← has_key "active_session";
  (if negb b then set_attr "active_session" PNone else ret ());;
  b ← has_key "generated_dag";
  (if negb b then set_attr "generated_dag" PNone else ret ()).

(** [fetch_all_conversations], lines 32-45. *)
Definition fetch_all_conversations : M unit :=
  try_except
    (response ← send E GET_conversations;
     if bool_decide (status_code response = 200%Z) then
       data ← json response;
       success ← lift (dict_get data "success");
       if truthy success then
         conversations ← lift (subscript data "conversations");
         set_attr "history" conversations
       else emit (st_warning "No conversation history found.")
     else emit (st_error "Failed to fetch conversation history."))
    (λ e, emit (st_error_exc "Error fetching history: " e)).

(** The loop of lines 58-61 over the items [reversed] yields: the first item
    that is a system message with the marker in its content becomes
    [generated_dag], and the loop breaks. *)
Fixpoint scan_for_dag (items : list pyval) : M unit :=
  match items with
  | [] => ret ()
  | msg :: rest =>
      message_type ← lift (subscript msg "message_type");
      if eq_str message_type "system" then
        content ← lift (subscript msg "content");
        marked ← lift (py_in "def " content);
        if (marked : bool) then
          content ← lift (subscript msg "content");
          set_attr "generated_dag" content
        else scan_for_dag rest
      else scan_for_dag rest
  end.

(** [load_conversation], lines 47-67. *)
Definition load_conversation (session_id : pyval) : M unit :=
  try_except
    (response ← send E (GET_chat_history session_id);
     if bool_decide (status_code response = 200%Z) then
       data ← json response;
       success ← lift (dict_get data "success");
       if truthy success then
         messages ← lift (subscript data "messages");
         set_attr "messages" messages;;
         set_attr "session_id" session_id;;
         set_attr "active_session" session_id;;
         set_attr "generated_dag" PNone;;
         messages ← lift (subscript data "messages");
         items ← lift (py_reversed messages);
         scan_for_dag items
       else emit (st_warning "No messages in this conversation.")
     else emit (st_error "Failed to load conversation."))
    (λ e, emit (st_error_exc "Error loading conversation: " e)).

(** The body of [if st.button("Clear Current Chat"):], lines 124-128. *)
Definition main_clear_chat : M unit :=
  set_attr "messages" (PList []);;
  set_attr "generated_dag" PNone;;
  set_attr "active_session" PNone;;
  u ← uuid4 E;
  set_attr "session_id" u;;
  emit (st_success "Chat cleared!").

(** The dict literal appended to the log. *)
Definition message (message_type : string) (content timestamp : pyval) : pyval :=
  PDict {[ "message_type" := PStr message_type;
           "content" := content;
           "timestamp" := timestamp ]}.

(** [st.session_state.messages.append({"message_type": .., "content": ..,
    "timestamp": datetime.now().isoformat()})]: the attribute and its bound
    [append] are looked up before the argument is built. *)
Definition append_message (message_type : string) (content : pyval) : M unit :=
  messages ← get_attr "messages";
  append ← lift (bound_append messages);
  timestamp ← now E;
  set_attr "messages" (append (message message_type content timestamp)).

Definition fallback_feedback : string := "Invalid input. Please try again.".
Definition validation_error_notice : string := "Backend error while validating input.".
Definition generation_error_notice : string := "Failed to generate DAG script.".

(** The body of [if user_input:], lines 150-204, for a non-empty input. *)
Definition chat_turn (user_input : string) : M unit :=
  emit (st_chat_message "user");;
  emit (st_write user_input);;
  append_message "user" (PStr user_input);;
  response ← send E (POST_validate_input user_input);
  emit (st_chat_message "system");;
  if bool_decide (status_code response = 200%Z) then
    data ← json response;
    valid ← lift (dict_get data "valid");
    if truthy valid then
      emit (st_success "Input validated successfully!");;
      session_id ← get_attr "session_id";
      dag_response ← send E (POST_generate_dag user_input session_id);
      if bool_decide (status_code dag_response = 200%Z) then
        dag_data ← json dag_response;
        dag_script ← lift (subscript dag_data "dag_script");
        emit (st_code dag_script);;
        set_attr "generated_dag" dag_script;;
        append_message "system" dag_script
      else
        emit (st_error generation_error_notice);;
        append_message "system" (PStr generation_error_notice)
    else
      got ← lift (dict_get data "feedback");
      let feedback := if truthy got then got else PStr fallback_feedback in
      emit (st_error (fstring E feedback));;
      append_message "system" (PStr (fstring E feedback))
  else
    emit (st_error validation_error_notice);;
    append_message "system" (PStr validation_error_notice).

(** Lines 147-204: [st.chat_input] gives [None] or the submitted text, and
    the turn runs only for a truthy (non-empty) text. *)
Definition main_chat_turn (user_input : option string) : M unit :=
  match user_input with
  | Some text => if truthy (PStr text) then chat_turn text else ret ()
  | None => ret ()
  end.

End WithEnv.

End App.
Export App.

(** ** Pure readings of the effectful code, used to state the theorems *)

Module Summary.

(** What the loop of lines 58-61 selects from the items it visits: the
    content of the first item that passes the test, nothing when no item
    does, or the exception met on the way. *)
Fixpoint first_dag (items : list pyval) : result (option pyval) :=
  match items with
  | [] => Ok None
  | msg :: rest =>
      match subscript msg "message_type" with
      | Raise e => Raise e
      | Ok message_type =>
          if eq_str message_type "system" then
            match subscript msg "content" with
            | Raise e => Raise e
            | Ok content =>
                match py_in "def " content with
                | Raise e => Raise e
                | Ok true => Ok (Some content)
                | Ok false => first_dag rest
                end
            end
          else first_dag rest
      end
  end.

(** Lines 57-61 as a function of the message log: the value they leave in
    [generated_dag] ([None] when nothing is selected). *)
Definition extract_artifact (log : pyval) : result pyval :=
  match py_reversed log with
  | Raise e => Raise e
  | Ok items =>
      match first_dag items with
      | Raise e => Raise e
      | Ok (Some content) => Ok content
      | Ok None => Ok PNone
      end
  end.

(** The message log and the artifact held by a world. *)
Definition message_log (w : World) : option pyval := session_state w !! "messages".
Definition artifact (w : World) : option pyval := session_state w !! "generated_dag".

(** The session store after lines 54-57 and the scan have run. *)
Definition replaced (session_id messages dag : pyval)
    (ss : gmap string pyval) : gmap string pyval :=
  <["generated_dag" := dag]>
    (<["active_session" := session_id]>
      (<["session_id" := session_id]>
        (<["messages" := messages]> ss))).

(** *** Conversation load *)

(** How a call of [load_conversation] ends: nothing stored and one notice on
    the page, or the conversation stored (lines 54-57 done) with the value
    the scan left in [generated_dag] and, when the scan raised, the
    exception the handler reported. *)
Inductive load_outcome :=
| NotLoaded (notice : ui_event)
| Loaded (messages dag : pyval) (trouble : option exn).

Definition load_error (e : exn) : ui_event :=
  st_error_exc "Error loading conversation: " e.

Definition load_outcome_of (E : Env) (session_id : pyval) : load_outcome :=
  match http E (GET_chat_history session_id) with
  | ConnectionFailed => NotLoaded (load_error RequestException)
  | Responded response =>
      if bool_decide (status_code response = 200%Z) then
        match json_body response with
        | None => NotLoaded (load_error JSONDecodeError)
        | Some data =>
            match dict_get data "success" with
            | Raise e => NotLoaded (load_error e)
            | Ok success =>
                if truthy success then
                  match subscript data "messages" with
                  | Raise e => NotLoaded (load_error e)
                  | Ok messages =>
                      match extract_artifact messages with
                      | Ok dag => Loaded messages dag None
                      | Raise e => Loaded messages PNone (Some e)
                      end
                  end
                else NotLoaded (st_warning "No messages in this conversation.")
            end
        end
      else NotLoaded (st_error "Failed to load conversation.")
  end.

Definition load_world (E : Env) (session_id : pyval) (w : World) : World :=
  match load_outcome_of E session_id with
  | NotLoaded notice =>
      MkWorld (session_state w) (page w ++ [notice])
              (calls w ++ [GET_chat_history session_id])
              (uuid_draws w) (clock_reads w)
  | Loaded messages dag trouble =>
      MkWorld (replaced session_id messages dag (session_state w))
              (page w ++ match trouble with
                         | Some e => [load_error e]
                         | None => []
                         end)
              (calls w ++ [GET_chat_history session_id])
              (uuid_draws w) (clock_reads w)
  end.

(** *** Typed messages, as the data model of the store's contract has them *)

Record Message := {
  message_type : string;
  content : string;
  timestamp : string
}.

Definition to_py (m : Message) : pyval :=
  message (message_type m) (PStr (content m)) (PStr (timestamp m)).

(** [needle] occurs in [s]. *)
Definition occurs_in (needle s : string) : Prop :=
  ∃ before after, s = before +:+ needle +:+ after.

(** A system message whose content carries the code marker. *)
Definition holds_dag (m : Message) : Prop :=
  message_type m = "system" ∧ occurs_in "def " (content m).

(** *** Session identifiers *)

(** [v] is not an identifier the generator has yet to issue. *)
Definition not_pending (E : Env) (w : World) (v : pyval) : Prop :=
  ∀ k, uuid_draws w ≤ k → v ≠ PStr (uuid4_str E k).

(** The identifier held by the session is not one still to be issued. *)
Definition held_id_issued (E : Env) (w : World) : Prop :=
  ∀ v, session_state w !! "session_id" = Some v → not_pending E w v.

(** The [session_id] observed after each of [n] consecutive clears. *)
Fixpoint ids_after_clears (E : Env) (n : nat) (w : World) : list (option pyval) :=
  match n with
  | 0 => []
  | S n =>
      let w' := (main_clear_chat E w).2 in
      (session_state w' !! "session_id") :: ids_after_clears E n w'
  end.

(** *** Operations on the session and the artifact invariant *)

Inductive operation :=
| OpInit
| OpRefresh
| OpLoad (session_id : pyval)
| OpClear
| OpTurn (user_input : option string).

Definition run (E : Env) (o : operation) : M unit :=
  match o with
  | OpInit => init_session E
  | OpRefresh => fetch_all_conversations E
  | OpLoad session_id => load_conversation E session_id
  | OpClear => main_clear_chat E
  | OpTurn user_input => main_chat_turn E user_input
  end.

(** [m] is a system message of content [c]. *)
Definition system_message_of (c : pyval) (m : pyval) : Prop :=
  subscript m "message_type" = Ok (PStr "system") ∧ subscript m "content" = Ok c.

(** [entry] reads back as a message of that type and content: these are the
    two fields [display_chat_history] and the scan read. *)
Definition reads_as (message_type : string) (content entry : pyval) : Prop :=
  subscript entry "message_type" = Ok (PStr message_type)
  ∧ subscript entry "content" = Ok content.

(** A present artifact is the content of a system message of the log. *)
Definition artifact_in_log (ss : gmap string pyval) : Prop :=
  ∀ dag, ss !! "generated_dag" = Some dag → dag ≠ PNone →
    ∃ log m, ss !! "messages" = Some (PList log) ∧ m ∈ log ∧ system_message_of dag m.

(** The log of [w'] is the log of [w] followed by [extra]. *)
Definition appended (w w' : World) (extra : list pyval) : Prop :=
  ∃ log, message_log w = Some (PList log) ∧ message_log w' = Some (PList (log ++ extra)).

(** The user message line 153 appends when the clock has been read [n]
    times before, and the system message appended next. *)
Definition user_message (E : Env) (text : string) (n : nat) : pyval :=
  message "user" (PStr text) (PStr (now_isoformat E n)).

Definition system_message (E : Env) (content : pyval) (n : nat) : pyval :=
  message "system" content (PStr (now_isoformat E (S n))).

(** The world [init_session] yields from an empty session store. *)
Definition fresh_world (E : Env) : World :=
  (init_session E (MkWorld ∅ [] [] 0 0)).2.

(** [load_conversation] reported a failure: it put a notice on the page
    (the three [st.warning] / [st.error] calls of lines 63, 65, 67 are its
    only writes to the page). *)
Definition load_reports_failure (E : Env) (session_id : pyval) (w : World) : Prop :=
  ∃ notice, page (load_conversation E session_id w).2 = page w ++ [notice].

(** The failures of a load that happen before line 54 stores anything. *)
Inductive fails_before_store (E : Env) (session_id : pyval) : Prop :=
| request_raises :
    http E (GET_chat_history session_id) = ConnectionFailed →
    fails_before_store E session_id
| status_not_200 r :
    http E (GET_chat_history session_id) = Responded r →
    status_code r ≠ 200%Z →
    fails_before_store E session_id
| body_undecodable r :
    http E (GET_chat_history session_id) = Responded r →
    json_body r = None →
    fails_before_store E session_id
| body_not_a_dict r data e :
    http E (GET_chat_history session_id) = Responded r →
    json_body r = Some data →
    dict_get data "success" = Raise e →
    fails_before_store E session_id
| success_falsy r data success :
    http E (GET_chat_history session_id) = Responded r →
    json_body r = Some data →
    dict_get data "success" = Ok success →
    truthy success = false →
    fails_before_store E session_id
| messages_missing r data e :
    http E (GET_chat_history session_id) = Responded r →
    json_body r = Some data →
    subscript data "messages" = Raise e →
    fails_before_store E session_id.

End Summary.
Export Summary.

(** ** Concrete backends and worlds *)

Module Samples.

Definition ok (body : pyval) : http_result :=
  Responded (Response 200 (Some body)).

Definition status (code : Z) : http_result :=
  Responded (Response code None).

(** A backend that gives one fixed answer per endpoint. *)
Definition backend (conversations chat_history validate generate : http_result) : Env :=
  {| http := λ r, match r with
                  | GET_conversations => conversations
                  | GET_chat_history _ => chat_history
                  | POST_validate_input _ => validate
                  | POST_generate_dag _ _ => generate
                  end;
     uuid4_str := λ n, "uuid-" +:+ pretty n;
     now_isoformat := λ n, "2024-01-01T00:00:0" +:+ pretty n;
     py_str := λ _, "<object>" |}.

(** The store holds one system message whose content is [null]. *)
Definition null_content_store : Env :=
  backend ConnectionFailed
    (ok (PDict {[ "success" := PBool true;
                  "messages" := PList [message "system" PNone (PStr "t0")] ]}))
    ConnectionFailed ConnectionFailed.

Definition null_content_before : World := fresh_world null_content_store.
Definition null_content_after : World :=
  (load_conversation null_content_store (PStr "abc123") null_content_before).2.

(** Scenario 4 of the specification: a generated script followed by two
    later user messages. *)
Definition scenario4_log : list Message :=
  [ {| message_type := "system"; content := "def process(): pass"; timestamp := "t0" |};
    {| message_type := "user"; content := "thanks"; timestamp := "t1" |};
    {| message_type := "user"; content := "bye"; timestamp := "t2" |} ].

Definition scenario4_body : gmap string pyval :=
  {[ "success" := PBool true; "messages" := PList (to_py <$> scenario4_log) ]}.

Definition scenario4_store : Env :=
  backend ConnectionFailed (ok (PDict scenario4_body)) ConnectionFailed ConnectionFailed.

(** Validation passes and generation returns [script]. *)
Definition generating_backend (script : pyval) : Env :=
  backend ConnectionFailed ConnectionFailed
    (ok (PDict {[ "valid" := PBool true ]}))
    (ok (PDict {[ "dag_script" := script ]})).

(** Scenario 2 of the specification: validation rejects with feedback. *)
Definition rejecting_backend : Env :=
  backend ConnectionFailed ConnectionFailed
    (ok (PDict {[ "valid" := PBool false;
                  "feedback" := PStr "Please describe at least one task." ]}))
    ConnectionFailed.

(** Generation answers 200 with an object that carries no script. *)
Definition scriptless_backend : Env :=
  backend ConnectionFailed ConnectionFailed
    (ok (PDict {[ "valid" := PBool true ]}))
    (ok (PDict {[ "error" := PStr "model unavailable" ]})).

(** A generated pipeline that defines no function, so that its text does not
    contain ["def "]. *)
Definition unmarked_script : string := "dag = DAG('etl', schedule='@daily')".

Definition unmarked_after : World :=
  (main_chat_turn (generating_backend (PStr unmarked_script))
     (Some "Build a daily ETL")
     (fresh_world (generating_backend (PStr unmarked_script)))).2.

(** Every endpoint answers HTTP 500. *)
Definition failing_backend : Env :=
  backend (status 500) (status 500) (status 500) (status 500).

Definition failed_load_before : World := fresh_world failing_backend.
Definition failed_load_after : World :=
  (load_conversation failing_backend (PStr "abc123") failed_load_before).2.

(** The backend is unreachable. *)
Definition unreachable_backend : Env :=
  backend ConnectionFailed ConnectionFailed ConnectionFailed ConnectionFailed.

End Samples.
Export Samples.

(** ** Rendering the log *)

Module Render.

(** [for x in v]: the items the loop visits, in order.  As for [py_reversed],
    the keys of a dict come in the order of the map and the items of a [str]
    are its bytes; every such item is a [str]. *)
Definition py_iter (v : pyval) : result (list pyval) :=
  match v with
  | PList l => Ok l
  | PDict d => Ok (PStr <$> (map_to_list d).*1)
  | PStr s => Ok (str_chars s)
  | _ => Raise TypeError
  end.

(** What [display_chat_history] writes: the container [st.chat_message]
    opens, and the [st.code(.., language="python")] or [st.markdown] call
    inside it.  The calls are recorded with the values the program passes;
    what Streamlit itself does with a value it does not accept is not part
    of the program. *)
Inductive chat_event :=
| chat_message (name : pyval)
| code_python (body : pyval)
| markdown (body : pyval).

(** Scripts that only write chat events. *)
Definition R (A : Type) : Type := list chat_event → result A * list chat_event.

#[global] Instance R_ret : MRet R := λ A a shown, (Ok a, shown).
#[global] Instance R_bind : MBind R := λ A B k m shown,
  match m shown with
  | (Ok a, shown') => k a shown'
  | (Raise e, shown') => (Raise e, shown')
  end.

Definition show (ev : chat_event) : R unit := λ shown, (Ok (), shown ++ [ev]).
Definition evaluate {A} (r : result A) : R A := λ shown, (r, shown).

(** The body of the loop of [display_chat_history], lines 75-79. *)
Definition display_message (message : pyval) : R unit :=
  name ← evaluate (subscript message "message_type");
  show (chat_message name);;
  message_type ← evaluate (subscript message "message_type");
  if eq_str message_type "system" then
    content ← evaluate (subscript message "content");
    marked ← evaluate (py_in "def " content);
    if (marked : bool) then
      content ← evaluate (subscript message "content");
      show (code_python content)
    else
      content ← evaluate (subscript message "content");
      show (markdown content)
  else
    content ← evaluate (subscript message "content");
    show (markdown content).

Fixpoint display_items (items : list pyval) : R unit :=
  match items with
  | [] => mret ()
  | message :: rest => display_message message;; display_items rest
  end.

(** [display_chat_history], lines 72-79, on the session store of [w]. *)
Definition display_chat_history (w : World) : R unit :=
  match session_state w !! "messages" with
  | None => evaluate (Raise AttributeError)
  | Some messages =>
      items ← evaluate (py_iter messages);
      display_items items
  end.

End Render.
Export Render.

(** ** Exporting the artifact *)

Module Exporter.

(** [datetime.now()], to the second. *)
Record datetime := {
  year : Z; month : Z; day : Z;
  hour : Z; minute : Z; second : Z
}.

(** The decimal digit of the units of [n]. *)
Definition digit (n : Z) : Ascii.ascii :=
  Ascii.ascii_of_N (Z.to_N (48 + n mod 10)).

Definition two_digits (n : Z) : string :=
  String (digit (n / 10)) (String (digit n) "").

Definition four_digits (n : Z) : string :=
  String (digit (n / 1000)) (String (digit (n / 100))
    (String (digit (n / 10)) (String (digit n) ""))).

(** [dt.strftime('%Y%m%d_%H%M%S')].  The year is written with four digits,
    which is what every platform does from the year 1000 on. *)
Definition strftime_stamp (dt : datetime) : string :=
  four_digits (year dt) +:+ two_digits (month dt) +:+ two_digits (day dt)
  +:+ "_" +:+ two_digits (hour dt) +:+ two_digits (minute dt)
  +:+ two_digits (second dt).

(** The arguments [st.download_button] is called with. *)
Record download_button := {
  label : string;
  data : string;
  file_name : string;
  mime : string;
  key : string
}.

(** [v.encode("utf-8")]: only a [str] has [encode].  Strings are modelled by
    their UTF-8 bytes, so the encoding is the string itself. *)
Definition encode_utf8 (v : pyval) : result string :=
  match v with
  | PStr s => Ok s
  | _ => Raise AttributeError
  end.

Section WithClock.
Context (E : Env) (clock : nat → datetime) (clicked : bool).

(** [datetime.now()], read from the same clock as the timestamps. *)
Definition datetime_now : M datetime :=
  λ w, (Ok (clock (clock_reads w)),
        MkWorld (session_state w) (page w) (calls w)
                (uuid_draws w) (S (clock_reads w))).

(** [st.download_button(.., key=k)].  Streamlit keeps the value of a keyed
    widget in [st.session_state] under the key of the widget; for a download
    button that value is whether the button was clicked ([clicked], the
    user's input to this run), which is also what the call returns.  The
    program itself never assigns an entry under a key of this form. *)
Definition st_download_button (button : download_button) : M bool :=
  set_attr (key button) (PBool clicked);;
  mret clicked.

(** [download_dag_button], lines 84-93.  The result is the button it asks
    Streamlit for (the function itself returns nothing). *)
Definition download_dag_button (dag_script : pyval) : M download_button :=
  buffer ← lift (encode_utf8 dag_script);
  stamp ← datetime_now;
  session_id ← get_attr "session_id";
  let button :=
    {| label := "⬇️ Download DAG Script";
       data := buffer;
       file_name := "generated_dag_" +:+ strftime_stamp stamp +:+ ".py";
       mime := "text/x-python";
       key := "download_dag_" +:+ fstring E session_id |} in
  st_download_button button;;
  mret button.

(** Lines 207-209: the button is asked for when [generated_dag] is truthy
    (after a divider, which is not recorded). *)
Definition main_download : M (option download_button) :=
  dag ← get_attr "generated_dag";
  if truthy dag then
    dag_script ← get_attr "generated_dag";
    button ← download_dag_button dag_script;
    mret (Some button)
  else mret None.

End WithClock.

End Exporter.
Export Exporter.

(** ** Statements about the session store *)

Module Store.

(** [if k not in st.session_state: st.session_state.k = v] on the store. *)
Definition ensure_key (k : string) (v : pyval)
    (ss : gmap string pyval) : gmap string pyval :=
  match ss !! k with
  | Some _ => ss
  | None => <[k := v]> ss
  end.

(** The store [init_session] leaves, when [u] is the next uuid. *)
Definition init_store (u : string) (ss : gmap string pyval) : gmap string pyval :=
  ensure_key "generated_dag" PNone
    (ensure_key "active_session" PNone
      (ensure_key "history" (PList [])
        (ensure_key "messages" (PList [])
          (ensure_key "session_id" (PStr u) ss)))).

(** The five keys the program reads. *)
Definition session_keys : list string :=
  ["session_id"; "messages"; "history"; "active_session"; "generated_dag"].

(** Every key the program reads is in the store. *)
Definition initialized (w : World) : Prop :=
  ∀ k, k ∈ session_keys → is_Some (session_state w !! k).

End Store.
Export Store.

(** ** Statements about the conversation store's answers *)

Module Answers.

(** The list call is answered with status 200, a body that decodes to an
    object with a truthy [success], and [conversations] in it. *)
Definition conversations_served (E : Env) (conversations : pyval) : Prop :=
  ∃ r body success,
    http E GET_conversations = Responded r
    ∧ status_code r = 200%Z
    ∧ json_body r = Some body
    ∧ dict_get body "success" = Ok success
    ∧ truthy success = true
    ∧ subscript body "conversations" = Ok conversations.

(** The same for the load call and its [messages]. *)
Definition conversation_served (E : Env) (session_id messages : pyval) : Prop :=
  ∃ r body success,
    http E (GET_chat_history session_id) = Responded r
    ∧ status_code r = 200%Z
    ∧ json_body r = Some body
    ∧ dict_get body "success" = Ok success
    ∧ truthy success = true
    ∧ subscript body "messages" = Ok messages.

End Answers.
Export Answers.

(** ** Statements about what is rendered *)

Module Rendered.

Definition code_body (ev : chat_event) : option pyval :=
  match ev with
  | code_python body => Some body
  | _ => None
  end.

(** The body of the last block rendered as code, if any. *)
Definition last_code (shown : list chat_event) : option pyval :=
  last (omap code_body shown).

(** The two calls a well-formed message is rendered with. *)
Definition bubble (m : Message) : list chat_event :=
  [ chat_message (PStr (message_type m));
    if bool_decide (message_type m = "system") && str_contains "def " (content m)
    then code_python (PStr (content m))
    else markdown (PStr (content m)) ].

End Rendered.
Export Rendered.

(** ** Statements about a chat turn *)

Module Turns.

(** Validation answered 200 with a body whose [valid] is truthy. *)
Definition validated (E : Env) (text : string) : Prop :=
  ∃ r body valid,
    http E (POST_validate_input text) = Responded r
    ∧ status_code r = 200%Z
    ∧ json_body r = Some body
    ∧ dict_get body "valid" = Ok valid
    ∧ truthy valid = true.

(** The ways a turn on [text] can go from [w]: its result, the world it
    leaves, and what in the answers of the backend led there. *)
Inductive turn_path (E : Env) (text : string) (w : World)
    (r : result unit) (w' : World) : Prop :=
| turn_without_log :
    (∀ log, message_log w ≠ Some (PList log)) →
    r = Raise AttributeError →
    session_state w' = session_state w →
    calls w' = calls w →
    turn_path E text w r w'
| turn_lost (log : list pyval) (e : exn) :
    message_log w = Some (PList log) →
    r = Raise e →
    session_state w'
      = <["messages" := PList (log ++ [user_message E text (clock_reads w)])]>
          (session_state w) →
    (calls w' = calls w ++ [POST_validate_input text]
     ∨ ∃ session_id,
         validated E text
         ∧ session_state w !! "session_id" = Some session_id
         ∧ calls w' = calls w ++ [POST_validate_input text;
                                  POST_generate_dag text session_id]) →
    turn_path E text w r w'
| turn_answered (log : list pyval) (notice : string) :
    message_log w = Some (PList log) →
    r = Ok () →
    session_state w'
      = <["messages" := PList (log ++ [user_message E text (clock_reads w);
                                       system_message E (PStr notice)
                                         (clock_reads w)])]>
          (session_state w) →
    ((∃ rv, http E (POST_validate_input text) = Responded rv
            ∧ status_code rv ≠ 200%Z
            ∧ notice = validation_error_notice
            ∧ calls w' = calls w ++ [POST_validate_input text])
     ∨ (∃ rv body valid got,
          http E (POST_validate_input text) = Responded rv
          ∧ status_code rv = 200%Z
          ∧ json_body rv = Some body
          ∧ dict_get body "valid" = Ok valid
          ∧ truthy valid = false
          ∧ dict_get body "feedback" = Ok got
          ∧ notice = fstring E (if truthy got then got else PStr fallback_feedback)
          ∧ calls w' = calls w ++ [POST_validate_input text])
     ∨ (∃ session_id rg,
          validated E text
          ∧ session_state w !! "session_id" = Some session_id
          ∧ http E (POST_generate_dag text session_id) = Responded rg
          ∧ status_code rg ≠ 200%Z
          ∧ notice = generation_error_notice
          ∧ calls w' = calls w ++ [POST_validate_input text;
                                   POST_generate_dag text session_id])) →
    turn_path E text w r w'
| turn_generated (log : list pyval) (session_id script : pyval)
    (rg : response) (body : pyval) :
    message_log w = Some (PList log) →
    r = Ok () →
    validated E text →
    session_state w !! "session_id" = Some session_id →
    http E (POST_generate_dag text session_id) = Responded rg →
    status_code rg = 200%Z →
    json_body rg = Some body →
    subscript body "dag_script" = Ok script →
    session_state w'
      = <["messages" := PList (log ++ [user_message E text (clock_reads w);
                                       system_message E script (clock_reads w)])]>
          (<["generated_dag" := script]> (session_state w)) →
    calls w' = calls w ++ [POST_validate_input text;
                           POST_generate_dag text session_id] →
    turn_path E text w r w'.

(** The artifact held is what the scan of lines 57-61 selects from the log
    held: what the download button offers is what a reload would offer. *)
Definition in_sync (w : World) : Prop :=
  ∃ log dag,
    message_log w = Some log
    ∧ artifact w = Some dag
    ∧ extract_artifact log = Ok dag.

(** Every script the generation service returns for [text] is a text that
    contains the marker. *)
Definition scripts_marked (E : Env) (text : string) : Prop :=
  ∀ session_id rg body script,
    http E (POST_generate_dag text session_id) = Responded rg →
    json_body rg = Some body →
    subscript body "dag_script" = Ok script →
    ∃ code, script = PStr code ∧ occurs_in "def " code.

(** Every truthy feedback the validation service returns for [text] is a
    text that does not contain the marker. *)
Definition feedback_unmarked (E : Env) (text : string) : Prop :=
  ∀ rv body got,
    http E (POST_validate_input text) = Responded rv →
    json_body rv = Some body →
    dict_get body "feedback" = Ok got →
    truthy got = true →
    ∃ feedback, got = PStr feedback ∧ ¬ occurs_in "def " feedback.

End Turns.
Export Turns.

(** ** Statements about the export *)

Module Stamps.

(** A date and time [datetime.now()] can return, from the year 1000 on. *)
Definition on_calendar (dt : datetime) : Prop :=
  (1000 ≤ year dt ≤ 9999 ∧ 1 ≤ month dt ≤ 12 ∧ 1 ≤ day dt ≤ 31
   ∧ 0 ≤ hour dt ≤ 23 ∧ 0 ≤ minute dt ≤ 59 ∧ 0 ≤ second dt ≤ 59)%Z.

End Stamps.
Export Stamps.

(** ** More concrete backends, logs and clocks *)

Module MoreSamples.

Definition sample_conversations : pyval :=
  PList [PDict {[ "session_id" := PStr "abc123"; "title" := PStr "Daily ETL" ]}].

(** A backend that serves everything: the conversation list, the log of
    scenario 4, a positive validation and a generated script. *)
Definition working_backend : Env :=
  backend
    (ok (PDict {[ "success" := PBool true;
                  "conversations" := sample_conversations ]}))
    (ok (PDict scenario4_body))
    (ok (PDict {[ "valid" := PBool true ]}))
    (ok (PDict {[ "dag_script" := PStr "def etl(): ..." ]})).

(** The log of scenario 4 behind two entries that are not messages. *)
Definition patchy_log : list pyval :=
  [PNone; PStr "corrupted"] ++ (to_py <$> scenario4_log).

Definition patchy_store : Env :=
  backend ConnectionFailed
    (ok (PDict {[ "success" := PBool true; "messages" := PList patchy_log ]}))
    ConnectionFailed ConnectionFailed.

(** The store serves an empty object where the list of messages should be. *)
Definition object_log_store : Env :=
  backend ConnectionFailed
    (ok (PDict {[ "success" := PBool true; "messages" := PDict ∅ ]}))
    (ok (PDict {[ "valid" := PBool true ]}))
    ConnectionFailed.



(** A clock that ticks one second per reading, from noon on 2024-05-17. *)
Definition ticking_clock (n : nat) : datetime :=
  {| year := 2024; month := 5; day := 17;
     hour := 12; minute := 0; second := Z.of_nat (n mod 60) |}.

(** The world after scenario 4 has been loaded. *)
Definition scenario4_loaded : World :=
  (load_conversation scenario4_store (PStr "abc123")
     (fresh_world scenario4_store)).2.

End MoreSamples.
Export MoreSamples.

(** * Theorems *)

(** ** Running scripts *)

Ltac run_script :=
  cbv [mbind M_bind bind mret M_ret ret lift raise try_except get_attr
       set_attr has_key emit send json uuid4 now put_state];
  cbn [session_state page calls uuid_draws clock_reads fst snd].

Section Scan.

Lemma scan_for_dag_first_dag (items : list pyval) (w : World) :
  scan_for_dag items w =
    match first_dag items with
    | Raise e => (Raise e, w)
    | Ok None => (Ok (), w)
    | Ok (Some content) =>
        (Ok (), put_state (<["generated_dag" := content]> (session_state w)) w)
    end.
Proof.
  induction items as [|msg rest IH]; [done|].
  cbn [scan_for_dag first_dag]. run_script.
  destruct (subscript msg "message_type") as [mt|e]; [|done].
  destruct (eq_str mt "system"); [|exact IH].
  destruct (subscript msg "content") as [c|e]; [|done].
  destruct (py_in "def " c) as [[]|e]; [done|exact IH|done].
Qed.

End Scan.

(** ** Conversation load *)

Section LoadConversation.
Context (E : Env).

(** [load_conversation] never raises, and its whole effect is [load_world]. *)
Lemma load_conversation_run (session_id : pyval) (w : World) :
  load_conversation E session_id w = (Ok (), load_world E session_id w).
Proof.
  unfold load_conversation, load_world, load_outcome_of, extract_artifact.
  run_script.
  destruct (http E (GET_chat_history session_id)) as [|[status body]]; [done|].
  cbn [status_code json_body]. case_bool_decide; [|done].
  destruct body as [data|]; [|done].
  destruct (dict_get data "success") as [success|e]; [|done].
  destruct (truthy success); [|done].
  destruct (subscript data "messages") as [messages|e]; [|done].
  destruct (py_reversed messages) as [items|e]; [|done].
  rewrite scan_for_dag_first_dag. cbn [session_state page calls uuid_draws clock_reads].
  destruct (first_dag items) as [[dag|]|e];
    unfold put_state, replaced;
    cbn [session_state page calls uuid_draws clock_reads];
    rewrite ?insert_insert_eq, ?app_nil_r; done.
Qed.

Lemma replaced_twice (session_id messages dag : pyval) (ss : gmap string pyval) :
  replaced session_id messages dag (replaced session_id messages dag ss)
  = replaced session_id messages dag ss.
Proof.
  unfold replaced. apply map_eq. intros k.
  destruct (decide (k = "generated_dag")) as [->|]; [by simplify_map_eq|].
  destruct (decide (k = "active_session")) as [->|]; [by simplify_map_eq|].
  destruct (decide (k = "session_id")) as [->|]; [by simplify_map_eq|].
  destruct (decide (k = "messages")) as [->|]; by simplify_map_eq.
Qed.

(** C9. Loading the same conversation twice, with the store answering the
    same both times, leaves the session store exactly as one load leaves it:
    same messages, same [session_id], same [active_session], same artifact.
    This holds on every path of [load_conversation], the failing ones
    included. *)
Theorem load_conversation_idempotent (session_id : pyval) (w : World) :
  session_state (load_conversation E session_id (load_conversation E session_id w).2).2
  = session_state (load_conversation E session_id w).2.
Proof.
  rewrite !load_conversation_run. cbn [snd]. unfold load_world.
  destruct (load_outcome_of E session_id) as [notice|messages dag trouble];
    cbn [session_state]; [done|apply replaced_twice].
Qed.

End LoadConversation.

(** ** The code marker *)

Section Marker.

Lemma starts_with_spec (p s : string) :
  starts_with p s = true ↔ ∃ rest, s = p +:+ rest.
Proof.
  revert s. induction p as [|a p IH]; intros s.
  - split; [|done]. intros _. by exists s.
  - destruct s as [|b s]; cbn [starts_with].
    + split; [done|]. intros [rest ?]. discriminate.
    + rewrite andb_true_iff, Ascii.eqb_eq, IH. split.
      * intros [-> [rest ->]]. by exists rest.
      * intros [rest Hr]. injection Hr as -> ->. eauto.
Qed.

Lemma append_cons (c : Ascii.ascii) (s t : string) :
  String c s +:+ t = String c (s +:+ t).
Proof. reflexivity. Qed.

(** [str_contains] decides occurrence as a contiguous substring. *)
Lemma str_contains_spec (needle s : string) :
  str_contains needle s = true ↔ occurs_in needle s.
Proof.
  unfold occurs_in. induction s as [|c s IH]; cbn [str_contains].
  - rewrite orb_false_r, starts_with_spec. split.
    + intros [rest ->]. by exists "", rest.
    + intros ([|? before] & after & H); [eauto|].
      rewrite append_cons in H. discriminate.
  - rewrite orb_true_iff, starts_with_spec, IH. split.
    + intros [[rest ->]|(before & after & ->)].
      * by exists "", rest.
      * by exists (String c before), after.
    + intros ([|? before] & after & H).
      * left. eauto.
      * right. exists before, after. rewrite append_cons in H. congruence.
Qed.

End Marker.

(** ** Artifact extraction on typed messages *)

Section Extraction.

Lemma subscript_message_type (mt : string) (c ts : pyval) :
  subscript (message mt c ts) "message_type" = Ok (PStr mt).
Proof. unfold subscript, message. by simplify_map_eq. Qed.

Lemma subscript_message_content (mt : string) (c ts : pyval) :
  subscript (message mt c ts) "content" = Ok c.
Proof. unfold subscript, message. by simplify_map_eq. Qed.

(** The dict literal the program appends reads back as it was written. *)
Lemma message_reads_as (mt : string) (c ts : pyval) :
  reads_as mt c (message mt c ts).
Proof. split; [apply subscript_message_type|apply subscript_message_content]. Qed.

(** One step of the scan on a typed message. *)
Lemma first_dag_cons (m : Message) (rest : list pyval) :
  first_dag (to_py m :: rest) =
    if bool_decide (message_type m = "system") && str_contains "def " (content m)
    then Ok (Some (PStr (content m)))
    else first_dag rest.
Proof.
  unfold to_py. cbn [first_dag].
  rewrite subscript_message_type. cbn [eq_str].
  case_bool_decide; [|done].
  rewrite subscript_message_content. cbn [py_in andb].
  by destruct (str_contains "def " (content m)).
Qed.

Lemma first_dag_hit (m : Message) (rest : list pyval) :
  holds_dag m → first_dag (to_py m :: rest) = Ok (Some (PStr (content m))).
Proof.
  intros [Hsys Hdef]. rewrite first_dag_cons.
  apply str_contains_spec in Hdef. rewrite Hdef.
  by rewrite bool_decide_eq_true_2.
Qed.

Lemma first_dag_skip (skipped : list Message) (rest : list pyval) :
  Forall (λ m, ¬ holds_dag m) skipped →
  first_dag ((to_py <$> skipped) ++ rest) = first_dag rest.
Proof.
  induction 1 as [|m skipped Hm _ IH]; [done|].
  rewrite fmap_cons, <- app_comm_cons, first_dag_cons, IH.
  case_bool_decide as Hsys; [|done].
  destruct (str_contains "def " (content m)) eqn:Hdef; [|done].
  destruct Hm. split; [done|]. by apply str_contains_spec.
Qed.

(** The scan of a typed log, newest message first. *)
Lemma extract_artifact_latest (earlier later : list Message) (m : Message) :
  holds_dag m → Forall (λ x, ¬ holds_dag x) later →
  extract_artifact (PList (to_py <$> (earlier ++ m :: later))) = Ok (PStr (content m)).
Proof.
  intros Hm Hlater. unfold extract_artifact, py_reversed.
  rewrite <- fmap_reverse, reverse_app, reverse_cons, <- app_assoc, fmap_app.
  rewrite first_dag_skip by by apply Forall_reverse.
  cbn [app fmap list_fmap]. by rewrite first_dag_hit.
Qed.

Lemma extract_artifact_none (ms : list Message) :
  Forall (λ x, ¬ holds_dag x) ms →
  extract_artifact (PList (to_py <$> ms)) = Ok PNone.
Proof.
  intros Hms. unfold extract_artifact, py_reversed.
  rewrite <- fmap_reverse, <- (app_nil_r (to_py <$> reverse ms)).
  rewrite first_dag_skip by by apply Forall_reverse. done.
Qed.

(** C3. When the store answers a load with a log of well-formed messages,
    the artifact after the load is the content of the most recent message
    that has [message_type = "system"] and whose content contains ["def "];
    when the log has no such message, the artifact is [None]. *)
Theorem load_extracts_latest_dag (E : Env) (session_id : pyval) (w : World)
    (body : gmap string pyval) (success : pyval) (ms : list Message) :
  http E (GET_chat_history session_id) = Responded (Response 200 (Some (PDict body))) →
  body !! "success" = Some success →
  truthy success = true →
  body !! "messages" = Some (PList (to_py <$> ms)) →
  let w' := (load_conversation E session_id w).2 in
  (∀ earlier m later,
      ms = earlier ++ m :: later →
      holds_dag m → Forall (λ x, ¬ holds_dag x) later →
      artifact w' = Some (PStr (content m)))
  ∧ (Forall (λ x, ¬ holds_dag x) ms → artifact w' = Some PNone).
Proof.
  intros Hhttp Hsuccess Htruthy Hmessages w'. subst w'.
  rewrite load_conversation_run. unfold load_world, load_outcome_of, artifact.
  rewrite Hhttp. cbn [status_code json_body dict_get subscript snd].
  rewrite bool_decide_eq_true_2 by done.
  rewrite Hsuccess. cbn [from_option id]. rewrite Htruthy, Hmessages.
  split.
  - intros earlier m later -> Hm Hlater.
    rewrite extract_artifact_latest by done.
    unfold replaced. cbn [session_state]. by simplify_map_eq.
  - intros Hnone. rewrite extract_artifact_none by done.
    unfold replaced. cbn [session_state]. by simplify_map_eq.
Qed.

Lemma load_extracts_latest_dag_scenario4 :
  artifact (load_conversation scenario4_store (PStr "abc123")
              (fresh_world scenario4_store)).2
  = Some (PStr "def process(): pass").
Proof.
  refine (proj1 (load_extracts_latest_dag scenario4_store (PStr "abc123")
                   (fresh_world scenario4_store) scenario4_body (PBool true)
                   scenario4_log _ _ _ _)
                [] {| message_type := "system"; content := "def process(): pass";
                      timestamp := "t0" |} _ _ _ _).
  - reflexivity.
  - reflexivity.
  - reflexivity.
  - reflexivity.
  - reflexivity.
  - split; [reflexivity|]. by exists "", "process(): pass".
  - repeat constructor; intros [? _]; discriminate.
Defined.

End Extraction.

(** ** Failing loads *)

Section FailingLoads.

Lemma fails_before_store_not_loaded (E : Env) (session_id : pyval) :
  fails_before_store E session_id →
  ∃ notice, load_outcome_of E session_id = NotLoaded notice.
Proof.
  unfold load_outcome_of.
  intros [H|r H Hs|r H Hb|r data e H Hb Hd|r data v H Hb Hd Hv|r data e H Hb Hm];
    rewrite H; [eauto|..]; case_bool_decide; eauto; try done.
  - rewrite Hb. eauto.
  - rewrite Hb, Hd. eauto.
  - rewrite Hb, Hd, Hv. eauto.
  - rewrite Hb, Hm.
    destruct (dict_get data "success") as [success|]; [|eauto].
    destruct (truthy success); eauto.
Qed.

(** C8, as amended. A load that fails with a non-200 response, with a falsy
    [success] in the body, or with an exception raised before the response's
    messages are stored (the request itself, the decoding of the body, a body
    that is not an object, a missing [messages] field) leaves the session
    store exactly as it was and puts one notice on the page. *)
Theorem failed_load_keeps_state (E : Env) (session_id : pyval) (w : World) :
  fails_before_store E session_id →
  session_state (load_conversation E session_id w).2 = session_state w
  ∧ load_reports_failure E session_id w.
Proof.
  intros [notice Hout]%fails_before_store_not_loaded.
  unfold load_reports_failure. rewrite load_conversation_run.
  unfold load_world. rewrite Hout. cbn [snd session_state page]. eauto.
Qed.

Lemma failed_load_keeps_state_http500 :
  session_state (load_conversation failing_backend (PStr "abc123")
                   (fresh_world failing_backend)).2
  = session_state (fresh_world failing_backend).
Proof.
  refine (proj1 (failed_load_keeps_state failing_backend (PStr "abc123")
                   (fresh_world failing_backend) _)).
  apply (status_not_200 _ _ (Response 500 None)); [reflexivity|discriminate].
Defined.

(** C8, as the specification words it, fails: the store answers 200 with one
    system message whose content is [null]; the scan raises [TypeError] on
    ["def " in None], the handler reports it, and by then lines 54-57 have
    replaced the log, [session_id] and [active_session]. *)
Lemma failed_load_after_store_overwrites :
  load_reports_failure null_content_store (PStr "abc123") null_content_before
  ∧ page null_content_after = page null_content_before ++ [load_error TypeError]
  ∧ session_state null_content_before !! "session_id" = Some (PStr "uuid-0")
  ∧ session_state null_content_after !! "session_id" = Some (PStr "abc123")
  ∧ session_state null_content_after ≠ session_state null_content_before.
Proof.
  split_and!.
  - exists (load_error TypeError). reflexivity.
  - reflexivity.
  - reflexivity.
  - reflexivity.
  - intros H. apply (f_equal (λ ss, ss !! "session_id")) in H.
    vm_compute in H. discriminate.
Qed.

End FailingLoads.

(** ** Clearing the chat *)

Section Clear.
Context (E : Env).

Lemma main_clear_chat_run (w : World) :
  main_clear_chat E w =
    (Ok (),
     MkWorld (<["session_id" := PStr (uuid4_str E (uuid_draws w))]>
               (<["active_session" := PNone]>
                 (<["generated_dag" := PNone]>
                   (<["messages" := PList []]> (session_state w)))))
             (page w ++ [st_success "Chat cleared!"]) (calls w)
             (S (uuid_draws w)) (clock_reads w)).
Proof. reflexivity. Qed.

(** [n] consecutive clears show the next [n] draws of the generator. *)
Lemma ids_after_clears_draws (n : nat) (w : World) :
  ids_after_clears E n w
  = (λ k, Some (PStr (uuid4_str E k))) <$> seq (uuid_draws w) n.
Proof.
  revert w. induction n as [|n IH]; intros w; [done|].
  cbn [ids_after_clears]. rewrite IH, main_clear_chat_run.
  cbn [snd session_state uuid_draws seq fmap list_fmap].
  by rewrite lookup_insert_eq.
Qed.

(** C5. Under the uniqueness contract of [uuid4] (no value is issued twice,
    and the identifier held is not one still to be issued), a clear ends
    with a [session_id] different from the one held before, an empty
    message log, no artifact and no active session; and the identifiers
    seen before and after any number of consecutive clears are pairwise
    distinct. *)
Theorem clear_issues_new_session (w : World) (n : nat) :
  Inj (=) (=) (uuid4_str E) →
  held_id_issued E w →
  (main_clear_chat E w).1 = Ok ()
  ∧ session_state (main_clear_chat E w).2 !! "session_id"
      ≠ session_state w !! "session_id"
  ∧ message_log (main_clear_chat E w).2 = Some (PList [])
  ∧ artifact (main_clear_chat E w).2 = Some PNone
  ∧ session_state (main_clear_chat E w).2 !! "active_session" = Some PNone
  ∧ NoDup (session_state w !! "session_id" :: ids_after_clears E n w).
Proof.
  intros Hinj Hheld. rewrite main_clear_chat_run.
  unfold message_log, artifact. cbn [fst snd session_state].
  split_and!; try by simplify_map_eq.
  - rewrite lookup_insert_eq. intros Heq.
    by eapply (Hheld _ (eq_sym Heq) (uuid_draws w)).
  - rewrite ids_after_clears_draws. apply NoDup_cons. split.
    + intros (k & Heq & Hk%elem_of_seq)%list_elem_of_fmap.
      eapply (Hheld _ Heq k); [lia|done].
    + apply NoDup_fmap_2; [|apply NoDup_seq].
      intros i j Hij. injection Hij as Hij. by apply Hinj.
Qed.

End Clear.

Lemma sample_uuid_inj : Inj (=) (=) (uuid4_str unreachable_backend).
Proof.
  intros i j H. cbn in H. apply (inj pretty).
  by injection H.
Qed.

Lemma clear_issues_new_session_twice :
  NoDup [ Some (PStr "uuid-0"); Some (PStr "uuid-1"); Some (PStr "uuid-2") ]
  ∧ message_log (main_clear_chat unreachable_backend
                   (fresh_world unreachable_backend)).2 = Some (PList []).
Proof.
  pose proof (clear_issues_new_session unreachable_backend
                (fresh_world unreachable_backend) 2 sample_uuid_inj) as H.
  destruct H as (_ & _ & Hlog & _ & _ & Hids).
  - intros v Hv k Hk ->.
    change (Some (PStr (uuid4_str unreachable_backend 0))
            = Some (PStr (uuid4_str unreachable_backend k))) in Hv.
    change (1 ≤ k) in Hk.
    assert (uuid4_str unreachable_backend 0 = uuid4_str unreachable_backend k)
      as Hu by congruence.
    apply sample_uuid_inj in Hu. lia.
  - split; [exact Hids|exact Hlog].
Defined.

(** ** The chat turn *)

Ltac run_turn :=
  unfold main_chat_turn, chat_turn, append_message;
  repeat (progress (run_script;
                    rewrite ?lookup_insert_eq;
                    rewrite ?lookup_insert_ne by done;
                    cbn [status_code json_body bound_append from_option id])).

Section ChatTurn.
Context (E : Env).

Lemma truthy_nonempty (text : string) : text ≠ "" → truthy (PStr text) = true.
Proof. by destruct text. Qed.

(** Without input, or with the empty text, no turn is submitted: nothing is
    called and nothing changes. *)
Lemma empty_turn_not_submitted (w : World) :
  main_chat_turn E None w = (Ok (), w) ∧ main_chat_turn E (Some "") w = (Ok (), w).
Proof. done. Qed.

(** C6. When validation answers 200 with a falsy [valid], the turn ends
    normally with two entries appended to the log: the user message, which
    reads back with type ["user"] and the submitted text as content, and one
    system message, which reads back with type ["system"] and the reply as
    content.  The reply is the server's feedback when that is a non-empty
    string, and "Invalid input. Please try again." when the feedback is
    absent, the empty string, or any other falsy value such as [null]; the
    artifact is left as it was, and the validation call is the only call
    made. *)
Theorem rejected_turn_reply (w : World) (text : string) (log : list pyval)
    (body : gmap string pyval) :
  text ≠ "" →
  message_log w = Some (PList log) →
  http E (POST_validate_input text)
    = Responded (Response 200 (Some (PDict body))) →
  truthy (default PNone (body !! "valid")) = false →
  ∃ (reply : string) (user_entry reply_entry : pyval),
    (main_chat_turn E (Some text) w).1 = Ok ()
    ∧ message_log (main_chat_turn E (Some text) w).2
        = Some (PList (log ++ [user_entry; reply_entry]))
    ∧ user_entry = user_message E text (clock_reads w)
    ∧ reply_entry = system_message E (PStr reply) (clock_reads w)
    ∧ reads_as "user" (PStr text) user_entry
    ∧ reads_as "system" (PStr reply) reply_entry
    ∧ subscript reply_entry "timestamp"
        = Ok (PStr (now_isoformat E (S (clock_reads w))))
    ∧ artifact (main_chat_turn E (Some text) w).2 = artifact w
    ∧ calls (main_chat_turn E (Some text) w).2
        = calls w ++ [POST_validate_input text]
    ∧ (∀ feedback, body !! "feedback" = Some (PStr feedback) →
         feedback ≠ "" → reply = feedback)
    ∧ (body !! "feedback" = None ∨ body !! "feedback" = Some (PStr "")
       ∨ truthy (default PNone (body !! "feedback")) = false →
         reply = "Invalid input. Please try again.").
Proof.
  intros Htext Hlog Hhttp Hvalid. unfold message_log, artifact in *.
  set (got := default PNone (body !! "feedback")).
  exists (fstring E (if truthy got then got else PStr fallback_feedback)).
  exists (user_message E text (clock_reads w)).
  exists (system_message E
            (PStr (fstring E (if truthy got then got else PStr fallback_feedback)))
            (clock_reads w)).
  unfold main_chat_turn. rewrite truthy_nonempty by done.
  run_turn. rewrite Hlog. run_turn. rewrite Hhttp. run_turn.
  rewrite bool_decide_eq_true_2 by done. cbn [dict_get]. run_turn.
  rewrite Hvalid. run_turn. fold got.
  split_and!; [done| |done|done| | | |done|done| |].
  - by rewrite <- app_assoc.
  - apply message_reads_as.
  - apply message_reads_as.
  - unfold system_message, message, subscript. by simplify_map_eq.
  - intros feedback Hfb Hne. subst got. rewrite Hfb. cbn [from_option id].
    by rewrite truthy_nonempty.
  - subst got. by intros [->| [->| ->]].
Qed.

(** C4, as amended. When validation passes and generation answers 200 with a
    [dag_script], the turn ends normally with the user message followed by a
    system message whose content is exactly the script, and the artifact is
    that script; when the script is a text that contains ["def "], this
    artifact is also what the scan of lines 57-61 selects from the new log. *)
Theorem generated_turn_sets_artifact (w : World) (text : string)
    (log : list pyval) (session_id : pyval)
    (verdict body : gmap string pyval) (script : pyval) :
  text ≠ "" →
  message_log w = Some (PList log) →
  session_state w !! "session_id" = Some session_id →
  http E (POST_validate_input text)
    = Responded (Response 200 (Some (PDict verdict))) →
  truthy (default PNone (verdict !! "valid")) = true →
  http E (POST_generate_dag text session_id)
    = Responded (Response 200 (Some (PDict body))) →
  body !! "dag_script" = Some script →
  (main_chat_turn E (Some text) w).1 = Ok ()
  ∧ message_log (main_chat_turn E (Some text) w).2
      = Some (PList (log ++ [user_message E text (clock_reads w);
                             system_message E script (clock_reads w)]))
  ∧ artifact (main_chat_turn E (Some text) w).2 = Some script
  ∧ (∀ code, script = PStr code → occurs_in "def " code →
       extract_artifact
         (PList (log ++ [user_message E text (clock_reads w);
                         system_message E script (clock_reads w)]))
       = Ok script).
Proof.
  intros Htext Hlog Hsid Hvalidate Hvalid Hgenerate Hscript.
  unfold message_log, artifact in *.
  unfold main_chat_turn. rewrite truthy_nonempty by done.
  run_turn. rewrite Hlog. run_turn. rewrite Hvalidate. run_turn.
  rewrite bool_decide_eq_true_2 by done. cbn [dict_get]. run_turn.
  rewrite Hvalid. run_turn. rewrite Hsid. run_turn. rewrite Hgenerate. run_turn.
  rewrite bool_decide_eq_true_2 by done. cbn [subscript]. rewrite Hscript. run_turn.
  split_and!; try done.
  - by rewrite <- app_assoc.
  - intros code -> Hcode%str_contains_spec.
    unfold extract_artifact, py_reversed, system_message.
    rewrite reverse_app. cbn [reverse rev_append app first_dag].
    rewrite subscript_message_type, subscript_message_content.
    cbn [eq_str py_in]. rewrite bool_decide_eq_true_2 by done. by rewrite Hcode.
Qed.

(** C10. When validation passes and generation answers 200 with an object
    that has no [dag_script] field, the turn ends with an uncaught
    [KeyError]: the user message is the only message appended, and the
    artifact is left as it was. *)
Theorem missing_dag_script_aborts_turn (w : World) (text : string)
    (log : list pyval) (session_id : pyval) (verdict body : gmap string pyval) :
  text ≠ "" →
  message_log w = Some (PList log) →
  session_state w !! "session_id" = Some session_id →
  http E (POST_validate_input text)
    = Responded (Response 200 (Some (PDict verdict))) →
  truthy (default PNone (verdict !! "valid")) = true →
  http E (POST_generate_dag text session_id)
    = Responded (Response 200 (Some (PDict body))) →
  body !! "dag_script" = None →
  (main_chat_turn E (Some text) w).1 = Raise (KeyError "dag_script")
  ∧ message_log (main_chat_turn E (Some text) w).2
      = Some (PList (log ++ [user_message E text (clock_reads w)]))
  ∧ artifact (main_chat_turn E (Some text) w).2 = artifact w.
Proof.
  intros Htext Hlog Hsid Hvalidate Hvalid Hgenerate Hscript.
  unfold message_log, artifact in *.
  unfold main_chat_turn. rewrite truthy_nonempty by done.
  run_turn. rewrite Hlog. run_turn. rewrite Hvalidate. run_turn.
  rewrite bool_decide_eq_true_2 by done. cbn [dict_get]. run_turn.
  rewrite Hvalid. run_turn. rewrite Hsid. run_turn. rewrite Hgenerate. run_turn.
  rewrite bool_decide_eq_true_2 by done. cbn [subscript]. rewrite Hscript. run_turn.
  done.
Qed.

(** C1 fails on the code: when [requests.post] raises on the validation
    call, nothing catches it. The turn ends with [RequestException], and the
    user message is the only message appended; no system message follows. *)
Theorem unreachable_validation_aborts_turn (w : World) (text : string)
    (log : list pyval) :
  text ≠ "" →
  message_log w = Some (PList log) →
  http E (POST_validate_input text) = ConnectionFailed →
  (main_chat_turn E (Some text) w).1 = Raise RequestException
  ∧ message_log (main_chat_turn E (Some text) w).2
      = Some (PList (log ++ [user_message E text (clock_reads w)])).
Proof.
  intros Htext Hlog Hvalidate. unfold message_log in *.
  unfold main_chat_turn. rewrite truthy_nonempty by done.
  run_turn. rewrite Hlog. run_turn. rewrite Hvalidate. run_turn. done.
Qed.

End ChatTurn.

(** ** What one operation can do to the session store *)

Section Frames.
Context (E : Env).

Lemma chat_turn_state (text : string) (w : World) :
  session_state (chat_turn E text w).2 = session_state w
  ∨ ∃ log extra,
      message_log w = Some (PList log)
      ∧ (session_state (chat_turn E text w).2
           = <["messages" := PList (log ++ extra)]> (session_state w)
         ∨ ∃ script m,
             system_message_of script m ∧ m ∈ extra
             ∧ session_state (chat_turn E text w).2
                 = <["messages" := PList (log ++ extra)]>
                     (<["generated_dag" := script]> (session_state w))).
Proof.
  unfold message_log. run_turn.
  destruct (session_state w !! "messages") as [[| | | | |log|]|] eqn:Hlog;
    run_turn; try by left.
  right. exists log.
  destruct (http E (POST_validate_input text)) as [|[status body]]; run_turn.
  { exists [user_message E text (clock_reads w)]. split; [done|]. by left. }
  case_bool_decide; run_turn.
  2:{ eexists [_; _]. split; [done|]. left. by rewrite insert_insert_eq, <- app_assoc. }
  destruct body as [data|]; run_turn.
  2:{ exists [user_message E text (clock_reads w)]. split; [done|]. by left. }
  destruct (dict_get data "valid") as [valid|]; run_turn.
  2:{ exists [user_message E text (clock_reads w)]. split; [done|]. by left. }
  destruct (truthy valid); run_turn.
  2:{ destruct (dict_get data "feedback") as [got|]; run_turn.
      - eexists [_; _]. split; [done|]. left. by rewrite insert_insert_eq, <- app_assoc.
      - exists [user_message E text (clock_reads w)]. split; [done|]. by left. }
  destruct (session_state w !! "session_id") as [session_id|]; run_turn.
  2:{ exists [user_message E text (clock_reads w)]. split; [done|]. by left. }
  destruct (http E (POST_generate_dag text session_id)) as [|[status' body']];
    run_turn.
  { exists [user_message E text (clock_reads w)]. split; [done|]. by left. }
  case_bool_decide; run_turn.
  2:{ eexists [_; _]. split; [done|]. left. by rewrite insert_insert_eq, <- app_assoc. }
  destruct body' as [dag_data|]; run_turn.
  2:{ exists [user_message E text (clock_reads w)]. split; [done|]. by left. }
  destruct (subscript dag_data "dag_script") as [dag_script|]; run_turn.
  2:{ exists [user_message E text (clock_reads w)]. split; [done|]. by left. }
  eexists [_; message "system" dag_script _]. split; [done|]. right.
  eexists dag_script, _. split_and!.
  - split; [apply subscript_message_type|apply subscript_message_content].
  - apply list_elem_of_In. right. left. reflexivity.
  - rewrite (insert_insert_ne _ "generated_dag" "messages") by done.
    by rewrite insert_insert_eq, <- app_assoc.
Qed.

(** How a turn ends: normally, with the user message and one system
    message appended; or with an exception, with at most the user message
    appended. In both cases the session identifier and the uuid generator
    are untouched. *)
Lemma chat_turn_outcomes (text : string) (w : World) :
  match (chat_turn E text w).1 with
  | Ok _ =>
      ∃ content,
        appended w (chat_turn E text w).2
          [user_message E text (clock_reads w);
           system_message E content (clock_reads w)]
  | Raise _ =>
      message_log (chat_turn E text w).2 = message_log w
      ∨ appended w (chat_turn E text w).2 [user_message E text (clock_reads w)]
  end
  ∧ uuid_draws (chat_turn E text w).2 = uuid_draws w
  ∧ session_state (chat_turn E text w).2 !! "session_id"
    = session_state w !! "session_id".
Proof.
  unfold appended, message_log. run_turn.
  destruct (session_state w !! "messages") as [[| | | | |log|]|] eqn:Hlog;
    run_turn; try by (split_and!; [left|..]).
  assert (∀ c : pyval,
    ∃ log0, Some (PList log) = Some (PList log0)
      ∧ Some (PList ((log ++ [message "user" (PStr text)
                                (PStr (now_isoformat E (clock_reads w)))])
                     ++ [message "system" c
                           (PStr (now_isoformat E (S (clock_reads w))))]))
        = Some (PList (log0 ++ [user_message E text (clock_reads w);
                                system_message E c (clock_reads w)]))) as Htwo.
  { intros c. exists log. by rewrite <- app_assoc. }
  assert (∃ log0, Some (PList log) = Some (PList log0)
      ∧ Some (PList (log ++ [message "user" (PStr text)
                               (PStr (now_isoformat E (clock_reads w)))]))
        = Some (PList (log0 ++ [user_message E text (clock_reads w)]))) as Hone.
  { by exists log. }
  destruct (http E (POST_validate_input text)) as [|[status body]]; run_turn.
  { split_and!; [by right|done|by simplify_map_eq]. }
  case_bool_decide; run_turn.
  2:{ split_and!; [eauto|done|by simplify_map_eq]. }
  destruct body as [data|]; run_turn.
  2:{ split_and!; [by right|done|by simplify_map_eq]. }
  destruct (dict_get data "valid") as [valid|]; run_turn.
  2:{ split_and!; [by right|done|by simplify_map_eq]. }
  destruct (truthy valid); run_turn.
  2:{ destruct (dict_get data "feedback") as [got|]; run_turn.
      - split_and!; [eauto|done|by simplify_map_eq].
      - split_and!; [by right|done|by simplify_map_eq]. }
  destruct (session_state w !! "session_id") as [session_id|] eqn:Hsid; run_turn.
  2:{ split_and!; [by right|done|by simplify_map_eq]. }
  destruct (http E (POST_generate_dag text session_id)) as [|[status' body']];
    run_turn.
  { split_and!; [by right|done|by simplify_map_eq]. }
  case_bool_decide; run_turn.
  2:{ split_and!; [eauto|done|by simplify_map_eq]. }
  destruct body' as [dag_data|]; run_turn.
  2:{ split_and!; [by right|done|by simplify_map_eq]. }
  destruct (subscript dag_data "dag_script") as [dag_script|]; run_turn.
  2:{ split_and!; [by right|done|by simplify_map_eq]. }
  split_and!; [eauto|done|by simplify_map_eq].
Qed.

End Frames.

(** ** The artifact invariant *)

Section Invariant.
Context (E : Env).

Lemma eq_str_true (v : pyval) (s : string) : eq_str v s = true → v = PStr s.
Proof. destruct v; try done. cbn. by intros ->%bool_decide_eq_true. Qed.

(** What the scan selects is the content of a system message it visited. *)
Lemma first_dag_selects (items : list pyval) (c : pyval) :
  first_dag items = Ok (Some c) → ∃ m, m ∈ items ∧ system_message_of c m.
Proof.
  induction items as [|msg rest IH]; [done|]. cbn [first_dag].
  assert (first_dag rest = Ok (Some c) →
          ∃ m, m ∈ msg :: rest ∧ system_message_of c m) as Hrest.
  { intros (m & Hm & Hc)%IH. exists m. split; [by right|done]. }
  destruct (subscript msg "message_type") as [mt|] eqn:Hmt; [|done].
  destruct (eq_str mt "system") eqn:Hsys; [|done].
  apply eq_str_true in Hsys as ->.
  destruct (subscript msg "content") as [content|] eqn:Hcontent; [|done].
  destruct (py_in "def " content) as [[]|]; [|done|done].
  intros [= ->]. exists msg. split; [by left|done].
Qed.

Lemma elem_of_str_chars (m : pyval) (s : string) :
  m ∈ str_chars s → ∃ c, m = PStr c.
Proof.
  induction s as [|a s IH]; cbn [str_chars].
  - by intros ?%elem_of_nil.
  - intros [->|?]%elem_of_cons; eauto.
Qed.

(** A selected artifact comes from a log that is a list, and from one of
    its system messages. *)
Lemma extract_artifact_selects (messages dag : pyval) :
  extract_artifact messages = Ok dag → dag ≠ PNone →
  ∃ log m, messages = PList log ∧ m ∈ log ∧ system_message_of dag m.
Proof.
  unfold extract_artifact. intros Hextract Hdag.
  destruct (py_reversed messages) as [items|] eqn:Hitems; [|done].
  destruct (first_dag items) as [[c|]|] eqn:Hfirst; [|congruence|done].
  injection Hextract as ->.
  apply first_dag_selects in Hfirst as (m & Hm & Hsys).
  destruct messages as [| | | |s|log|d]; try done; injection Hitems as <-.
  - apply elem_of_reverse, elem_of_str_chars in Hm as [c ->].
    by destruct Hsys.
  - exists log, m. by rewrite elem_of_reverse in Hm.
  - apply elem_of_reverse, list_elem_of_fmap in Hm as (k & -> & _).
    by destruct Hsys.
Qed.

Lemma init_session_lookups (w : World) :
  session_state (init_session E w).2 !! "generated_dag"
    = Some (default PNone (session_state w !! "generated_dag"))
  ∧ session_state (init_session E w).2 !! "messages"
    = Some (default (PList []) (session_state w !! "messages")).
Proof.
  unfold init_session.
  repeat (run_script; rewrite ?lookup_insert_ne by done;
          case_bool_decide; cbn [negb]);
    run_script;
    repeat match goal with
           | H : is_Some _ |- _ => destruct H as [? H]
           | H : ¬ is_Some _ |- _ => apply eq_None_not_Some in H
           end;
    by simplify_map_eq.
Qed.

Lemma fetch_all_conversations_state (w : World) :
  (fetch_all_conversations E w).1 = Ok ()
  ∧ (session_state (fetch_all_conversations E w).2 = session_state w
     ∨ ∃ conversations,
         session_state (fetch_all_conversations E w).2
         = <["history" := conversations]> (session_state w)).
Proof.
  unfold fetch_all_conversations. run_script.
  destruct (http E GET_conversations) as [|[status body]]; run_script; [eauto|].
  cbn [status_code json_body]. case_bool_decide; run_script; [|eauto].
  destruct body as [data|]; run_script; [|eauto].
  destruct (dict_get data "success") as [success|]; run_script; [|eauto].
  destruct (truthy success); run_script; [|eauto].
  destruct (subscript data "conversations"); run_script; eauto.
Qed.

(** C7. Every operation on the session ([init_session],
    [fetch_all_conversations], [load_conversation], the clear, and the chat
    turn on each of its paths, the ones that end in an exception included)
    preserves the invariant: an artifact that is present is the content of a
    system message of the current log. *)
Theorem artifact_in_log_preserved (o : operation) (w : World) :
  artifact_in_log (session_state w) →
  artifact_in_log (session_state (run E o w).2).
Proof.
  intros Hinv. destruct o as [| |session_id| |[text|]]; cbn [run].
  - destruct (init_session_lookups w) as [Hdag Hlog].
    intros dag Hdag' Hpresent. rewrite Hdag in Hdag'.
    destruct (session_state w !! "generated_dag") as [dag0|] eqn:Hdag0;
      cbn in Hdag'; [|congruence].
    injection Hdag' as ->.
    destruct (Hinv dag Hdag0 Hpresent) as (log & m & Hlog0 & Hm & Hsys).
    exists log, m. by rewrite Hlog, Hlog0.
  - destruct (fetch_all_conversations_state w) as [_ [->|[c ->]]]; [done|].
    intros dag Hdag Hpresent. rewrite lookup_insert_ne in Hdag by done.
    destruct (Hinv dag Hdag Hpresent) as (log & m & Hlog & Hm & Hsys).
    exists log, m. by rewrite lookup_insert_ne.
  - rewrite load_conversation_run. unfold load_world, load_outcome_of.
    destruct (http E (GET_chat_history session_id)) as [|[status body]]; [done|].
    case_bool_decide; [|done]. cbn [json_body].
    destruct body as [data|]; [|done].
    destruct (dict_get data "success") as [success|]; [|done].
    destruct (truthy success); [|done].
    destruct (subscript data "messages") as [messages|]; [|done].
    destruct (extract_artifact messages) as [dag0|] eqn:Hextract;
      cbn [snd session_state]; unfold replaced; intros dag Hdag Hpresent;
      rewrite lookup_insert_eq in Hdag; simplify_eq; try done.
    destruct (extract_artifact_selects _ _ Hextract Hpresent)
      as (log & m & -> & Hm & Hsys).
    exists log, m. by simplify_map_eq.
  - rewrite main_clear_chat_run. cbn [snd session_state].
    intros dag Hdag Hpresent. by simplify_map_eq.
  - cbn [main_chat_turn]. destruct (truthy (PStr text)); [|done].
    destruct (chat_turn_state E text w)
      as [->|(log & extra & Hlog & [->|(script & m & Hsys & Hm & ->)])]; [done|..].
    + intros dag Hdag Hpresent. rewrite lookup_insert_ne in Hdag by done.
      destruct (Hinv dag Hdag Hpresent) as (log' & m & Hlog' & Hm & Hsys).
      unfold message_log in Hlog. rewrite Hlog in Hlog'. injection Hlog' as <-.
      exists (log ++ extra), m. rewrite lookup_insert_eq.
      split_and!; [done| |done]. apply elem_of_app. by left.
    + intros dag Hdag Hpresent.
      rewrite lookup_insert_ne, lookup_insert_eq in Hdag by done.
      injection Hdag as <-.
      exists (log ++ extra), m. rewrite lookup_insert_eq.
      split_and!; [done| |done]. apply elem_of_app. by right.
  - done.
Qed.

(** The invariant holds when the session starts, hence in every state the
    operations can reach. *)
Lemma artifact_in_log_fresh : artifact_in_log (session_state (fresh_world E)).
Proof. intros dag Hdag Hpresent. vm_compute in Hdag. congruence. Qed.

End Invariant.

(** ** Session identifiers across operations *)

Section SessionIds.
Context (E : Env) (uuid4_unique : Inj (=) (=) (uuid4_str E)).

Lemma init_session_id (w : World) :
  session_state (init_session E w).2 !! "session_id"
    = Some (default (PStr (uuid4_str E (uuid_draws w)))
                    (session_state w !! "session_id"))
  ∧ uuid_draws (init_session E w).2
    = match session_state w !! "session_id" with
      | Some _ => uuid_draws w
      | None => S (uuid_draws w)
      end.
Proof.
  unfold init_session.
  repeat (run_script; rewrite ?lookup_insert_ne by done;
          case_bool_decide; cbn [negb]);
    run_script;
    repeat match goal with
           | H : is_Some _ |- _ => destruct H as [? H]
           | H : ¬ is_Some _ |- _ => apply eq_None_not_Some in H
           end;
    by simplify_map_eq.
Qed.

Lemma fetch_all_conversations_draws (w : World) :
  uuid_draws (fetch_all_conversations E w).2 = uuid_draws w.
Proof.
  unfold fetch_all_conversations. run_script.
  destruct (http E GET_conversations) as [|[status body]]; run_script; [done|].
  cbn [status_code json_body]. case_bool_decide; run_script; [|done].
  destruct body as [data|]; run_script; [|done].
  destruct (dict_get data "success") as [success|]; run_script; [|done].
  destruct (truthy success); run_script; [|done].
  destruct (subscript data "conversations"); by run_script.
Qed.

(** The identifier a fresh session holds has been issued. *)
Lemma held_id_issued_fresh : held_id_issued E (fresh_world E).
Proof.
  intros v Hv k Hk ->.
  change (Some (PStr (uuid4_str E 0)) = Some (PStr (uuid4_str E k))) in Hv.
  change (1 ≤ k) in Hk.
  assert (uuid4_str E 0 = uuid4_str E k) as Hu by congruence.
  apply uuid4_unique in Hu. lia.
Qed.

(** Every operation keeps it so, provided the store never hands out an
    identifier that the generator has yet to issue. *)
Lemma held_id_issued_preserved (o : operation) (w : World) :
  held_id_issued E w →
  (∀ session_id, o = OpLoad session_id → not_pending E w session_id) →
  held_id_issued E (run E o w).2.
Proof.
  intros Hheld Hload. destruct o as [| |session_id| |[text|]]; cbn [run].
  - destruct (init_session_id w) as [Hid Hdraws].
    intros v Hv k Hk. rewrite Hid in Hv. rewrite Hdraws in Hk.
    destruct (session_state w !! "session_id") as [v0|] eqn:Hv0;
      cbn in Hv; injection Hv as <-.
    + by apply (Hheld v0).
    + intros [= Hu]. apply uuid4_unique in Hu. lia.
  - intros v Hv k Hk. rewrite fetch_all_conversations_draws in Hk.
    apply (Hheld v); [|done].
    destruct (fetch_all_conversations_state E w) as [_ [Hs|[c Hs]]];
      rewrite Hs in Hv; by simplify_map_eq.
  - rewrite load_conversation_run. unfold load_world.
    destruct (load_outcome_of E session_id) as [notice|messages dag trouble];
      intros v Hv k Hk; cbn [snd session_state uuid_draws] in *.
    + by apply (Hheld v).
    + unfold replaced in Hv. simplify_map_eq. by apply (Hload v).
  - rewrite main_clear_chat_run. intros v Hv k Hk.
    cbn [snd session_state uuid_draws] in *. simplify_map_eq.
    intros [= Hu]. apply uuid4_unique in Hu. lia.
  - cbn [main_chat_turn]. destruct (truthy (PStr text)); [|done].
    destruct (chat_turn_outcomes E text w) as (_ & Hdraws & Hid).
    intros v Hv k Hk. rewrite Hid in Hv. rewrite Hdraws in Hk.
    by apply (Hheld v).
  - done.
Qed.

End SessionIds.

(** ** Remote failures *)

Section RemoteFailures.
Context (E : Env).

Lemma no_good_response_fails (session_id : pyval) :
  (∀ r, http E (GET_chat_history session_id) = Responded r →
        status_code r ≠ 200%Z) →
  fails_before_store E session_id.
Proof.
  intros Hbad.
  destruct (http E (GET_chat_history session_id)) as [|r] eqn:Hhttp.
  - by apply request_raises.
  - apply (status_not_200 _ _ r); [done|by apply Hbad].
Qed.

(** C2, as amended. The two conversation calls never let a failure escape:
    [fetch_all_conversations] and [load_conversation] always return, and when
    their request raises or is answered with a status other than 200 they
    leave the session store as it was and put one notice on the page (no
    message is appended). In a chat turn, a validation or generation answer
    with a status other than 200 ends the turn normally with the user
    message followed by one system message carrying the fixed notice (the
    appended entry reads back with type ["system"] and the notice as its
    content), the artifact untouched. *)
Theorem remote_failures_recovered (w : World) :
  (fetch_all_conversations E w).1 = Ok ()
  ∧ (∀ session_id, (load_conversation E session_id w).1 = Ok ())
  ∧ ((∀ r, http E GET_conversations = Responded r → status_code r ≠ 200%Z) →
       session_state (fetch_all_conversations E w).2 = session_state w
       ∧ ∃ notice, page (fetch_all_conversations E w).2 = page w ++ [notice])
  ∧ (∀ session_id,
       (∀ r, http E (GET_chat_history session_id) = Responded r →
             status_code r ≠ 200%Z) →
       session_state (load_conversation E session_id w).2 = session_state w
       ∧ ∃ notice, page (load_conversation E session_id w).2 = page w ++ [notice])
  ∧ (∀ text log r,
       text ≠ "" →
       message_log w = Some (PList log) →
       http E (POST_validate_input text) = Responded r →
       status_code r ≠ 200%Z →
       (main_chat_turn E (Some text) w).1 = Ok ()
       ∧ message_log (main_chat_turn E (Some text) w).2
           = Some (PList (log ++
               [user_message E text (clock_reads w);
                system_message E (PStr "Backend error while validating input.")
                  (clock_reads w)]))
       ∧ artifact (main_chat_turn E (Some text) w).2 = artifact w
       ∧ reads_as "system" (PStr "Backend error while validating input.")
           (system_message E (PStr "Backend error while validating input.")
              (clock_reads w)))
  ∧ (∀ text log session_id verdict r,
       text ≠ "" →
       message_log w = Some (PList log) →
       session_state w !! "session_id" = Some session_id →
       http E (POST_validate_input text)
         = Responded (Response 200 (Some (PDict verdict))) →
       truthy (default PNone (verdict !! "valid")) = true →
       http E (POST_generate_dag text session_id) = Responded r →
       status_code r ≠ 200%Z →
       (main_chat_turn E (Some text) w).1 = Ok ()
       ∧ message_log (main_chat_turn E (Some text) w).2
           = Some (PList (log ++
               [user_message E text (clock_reads w);
                system_message E (PStr "Failed to generate DAG script.")
                  (clock_reads w)]))
       ∧ artifact (main_chat_turn E (Some text) w).2 = artifact w
       ∧ reads_as "system" (PStr "Failed to generate DAG script.")
           (system_message E (PStr "Failed to generate DAG script.")
              (clock_reads w))).
Proof.
  split_and!.
  - apply fetch_all_conversations_state.
  - intros session_id. by rewrite load_conversation_run.
  - intros Hbad. unfold fetch_all_conversations. run_script.
    destruct (http E GET_conversations) as [|r] eqn:Hhttp; run_script; [eauto|].
    rewrite bool_decide_eq_false_2 by by apply Hbad. run_script. eauto.
  - intros session_id [notice Hout]%no_good_response_fails%fails_before_store_not_loaded.
    rewrite load_conversation_run. unfold load_world. rewrite Hout.
    cbn [snd session_state page]. eauto.
  - intros text log r Htext Hlog Hvalidate Hstatus.
    unfold message_log, artifact in *.
    unfold main_chat_turn. rewrite truthy_nonempty by done.
    run_turn. rewrite Hlog. run_turn. rewrite Hvalidate. run_turn.
    rewrite bool_decide_eq_false_2 by done. run_turn.
    split_and!; [done| |done|apply message_reads_as]. by rewrite <- app_assoc.
  - intros text log session_id verdict r Htext Hlog Hsid Hvalidate Hvalid
      Hgenerate Hstatus.
    unfold message_log, artifact in *.
    unfold main_chat_turn. rewrite truthy_nonempty by done.
    run_turn. rewrite Hlog. run_turn. rewrite Hvalidate. run_turn.
    rewrite bool_decide_eq_true_2 by done. cbn [dict_get]. run_turn.
    rewrite Hvalid. run_turn. rewrite Hsid. run_turn. rewrite Hgenerate. run_turn.
    rewrite bool_decide_eq_false_2 by done. run_turn.
    split_and!; [done| |done|apply message_reads_as]. by rewrite <- app_assoc.
Qed.

End RemoteFailures.

Lemma remote_failures_recovered_http500 :
  message_log (main_chat_turn failing_backend (Some "Build a daily ETL")
                 (fresh_world failing_backend)).2
  = Some (PList [ user_message failing_backend "Build a daily ETL" 0;
                  system_message failing_backend
                    (PStr "Backend error while validating input.") 0 ])
  ∧ session_state failed_load_after = session_state failed_load_before.
Proof.
  destruct (remote_failures_recovered failing_backend (fresh_world failing_backend))
    as (_ & _ & _ & Hload & Hvalidate & _).
  split.
  - refine (proj1 (proj2 (Hvalidate "Build a daily ETL" [] (Response 500 None)
                            _ _ _ _))).
    + discriminate.
    + reflexivity.
    + reflexivity.
    + discriminate.
  - refine (proj1 (Hload (PStr "abc123") _)).
    intros r [= <-]. discriminate.
Defined.

(** C2, as the specification words it, fails: the store answers the load
    with HTTP 500; [load_conversation] reports it on the page and the message
    log is what it was, with no system message appended. *)
Lemma failed_load_appends_nothing :
  http failing_backend (GET_chat_history (PStr "abc123"))
    = Responded (Response 500 None)
  ∧ page failed_load_after
    = page failed_load_before ++ [st_error "Failed to load conversation."]
  ∧ message_log failed_load_before = Some (PList [])
  ∧ message_log failed_load_after = Some (PList [])
  ∧ ¬ (∃ notice, appended failed_load_before failed_load_after [notice]).
Proof.
  split_and!; try reflexivity.
  intros (notice & log & Hbefore & Hafter).
  change (Some (PList []) = Some (PList log)) in Hbefore.
  change (Some (PList []) = Some (PList (log ++ [notice]))) in Hafter.
  injection Hbefore as <-. discriminate.
Qed.

(** ** The theorems on the scenarios of the specification *)

(** Scenario 2: the feedback of the validation service is the reply. *)
Lemma rejected_turn_reply_scenario2 :
  ∃ user_entry reply_entry,
    message_log (main_chat_turn rejecting_backend (Some "asdf")
                   (fresh_world rejecting_backend)).2
    = Some (PList [user_entry; reply_entry])
    ∧ subscript user_entry "content" = Ok (PStr "asdf")
    ∧ subscript reply_entry "message_type" = Ok (PStr "system")
    ∧ subscript reply_entry "content"
      = Ok (PStr "Please describe at least one task.")
    ∧ calls (main_chat_turn rejecting_backend (Some "asdf")
               (fresh_world rejecting_backend)).2
      = [POST_validate_input "asdf"].
Proof.
  destruct (rejected_turn_reply rejecting_backend (fresh_world rejecting_backend)
              "asdf" []
              {[ "valid" := PBool false;
                 "feedback" := PStr "Please describe at least one task." ]})
    as (reply & user_entry & reply_entry & _ & Hlog & _ & _ & [_ Huser]
        & [Htype Hcontent] & _ & _ & Hcalls & Hfeedback & _).
  - discriminate.
  - reflexivity.
  - reflexivity.
  - reflexivity.
  - exists user_entry, reply_entry.
    split_and!; [exact Hlog|exact Huser|exact Htype| |exact Hcalls].
    rewrite Hcontent. do 2 f_equal.
    apply Hfeedback; [reflexivity|discriminate].
Defined.

(** Scenario 1: the generated script becomes the reply and the artifact, and
    the scan of the new log finds it. *)
Lemma generated_turn_sets_artifact_scenario1 :
  artifact (main_chat_turn (generating_backend (PStr "def etl(): ..."))
              (Some "Build a daily ETL")
              (fresh_world (generating_backend (PStr "def etl(): ...")))).2
  = Some (PStr "def etl(): ...")
  ∧ extract_artifact
      (PList [ user_message (generating_backend (PStr "def etl(): ..."))
                 "Build a daily ETL" 0;
               system_message (generating_backend (PStr "def etl(): ..."))
                 (PStr "def etl(): ...") 0 ])
    = Ok (PStr "def etl(): ...").
Proof.
  destruct (generated_turn_sets_artifact (generating_backend (PStr "def etl(): ..."))
              (fresh_world (generating_backend (PStr "def etl(): ...")))
              "Build a daily ETL" [] (PStr "uuid-0")
              {[ "valid" := PBool true ]}
              {[ "dag_script" := PStr "def etl(): ..." ]}
              (PStr "def etl(): ..."))
    as (_ & _ & Hartifact & Hscan).
  - discriminate.
  - reflexivity.
  - reflexivity.
  - reflexivity.
  - reflexivity.
  - reflexivity.
  - reflexivity.
  - split; [exact Hartifact|].
    apply (Hscan "def etl(): ..."); [reflexivity|].
    by exists "", "etl(): ...".
Defined.

(** C4, as the specification words it, fails: generation returns a pipeline
    that defines no function. The artifact is set to that text, while the
    scan of the updated log selects nothing. *)
Lemma generated_artifact_missed_by_scan :
  artifact unmarked_after = Some (PStr unmarked_script)
  ∧ ∃ log, message_log unmarked_after = Some log
           ∧ extract_artifact log = Ok PNone
           ∧ Ok PNone ≠ Ok (PStr unmarked_script).
Proof.
  split; [by vm_compute|].
  eexists. split_and!; [by vm_compute|by vm_compute|discriminate].
Qed.

Lemma missing_dag_script_aborts_turn_scriptless :
  (main_chat_turn scriptless_backend (Some "Build a daily ETL")
     (fresh_world scriptless_backend)).1 = Raise (KeyError "dag_script")
  ∧ message_log (main_chat_turn scriptless_backend (Some "Build a daily ETL")
                   (fresh_world scriptless_backend)).2
    = Some (PList [ user_message scriptless_backend "Build a daily ETL" 0 ])
  ∧ artifact (main_chat_turn scriptless_backend (Some "Build a daily ETL")
                (fresh_world scriptless_backend)).2
    = Some PNone.
Proof.
  refine (missing_dag_script_aborts_turn scriptless_backend
            (fresh_world scriptless_backend) "Build a daily ETL" []
            (PStr "uuid-0") {[ "valid" := PBool true ]}
            {[ "error" := PStr "model unavailable" ]} _ _ _ _ _ _ _).
  - discriminate.
  - reflexivity.
  - reflexivity.
  - reflexivity.
  - reflexivity.
  - reflexivity.
  - reflexivity.
Defined.

Lemma unreachable_validation_aborts_turn_fresh :
  (main_chat_turn unreachable_backend (Some "Build a daily ETL")
     (fresh_world unreachable_backend)).1 = Raise RequestException
  ∧ message_log (main_chat_turn unreachable_backend (Some "Build a daily ETL")
                   (fresh_world unreachable_backend)).2
    = Some (PList [ user_message unreachable_backend "Build a daily ETL" 0 ]).
Proof.
  refine (unreachable_validation_aborts_turn unreachable_backend
            (fresh_world unreachable_backend) "Build a daily ETL" [] _ _ _).
  - discriminate.
  - reflexivity.
  - reflexivity.
Defined.

Lemma artifact_in_log_preserved_scenario1 :
  artifact_in_log
    (session_state
       (run (generating_backend (PStr "def etl(): ..."))
            (OpTurn (Some "Build a daily ETL"))
            (fresh_world (generating_backend (PStr "def etl(): ...")))).2).
Proof.
  apply (artifact_in_log_preserved (generating_backend (PStr "def etl(): ..."))
           (OpTurn (Some "Build a daily ETL"))
           (fresh_world (generating_backend (PStr "def etl(): ...")))).
  intros dag Hdag Hpresent.
  change (Some PNone = Some dag) in Hdag. congruence.
Defined.

(** * Further properties of the program *)

(** ** Session initialisation *)

Section InitSession.
Context (E : Env).

Lemma ensure_key_step (k : string) (v : pyval) (rest : M unit) (w : World) :
  (b ← has_key k; (if negb b then set_attr k v else ret ());; rest) w
  = rest (put_state (ensure_key k v (session_state w)) w).
Proof.
  destruct w as [ss pg cl ud cr]. unfold ensure_key. run_script.
  destruct (ss !! k) as [x|] eqn:Hk.
  - by rewrite bool_decide_eq_true_2 by eauto.
  - rewrite bool_decide_eq_false_2 by by intros [? ?]. done.
Qed.

Lemma ensure_key_last (k : string) (v : pyval) (w : World) :
  (b ← has_key k; if negb b then set_attr k v else ret ()) w
  = (Ok (), put_state (ensure_key k v (session_state w)) w).
Proof.
  destruct w as [ss pg cl ud cr]. unfold ensure_key. run_script.
  destruct (ss !! k) as [x|] eqn:Hk.
  - by rewrite bool_decide_eq_true_2 by eauto.
  - rewrite bool_decide_eq_false_2 by by intros [? ?]. done.
Qed.

Lemma ensure_uuid_step (rest : M unit) (w : World) :
  (b ← has_key "session_id";
   (if negb b then u ← uuid4 E; set_attr "session_id" u else ret ());; rest) w
  = rest (MkWorld (ensure_key "session_id" (PStr (uuid4_str E (uuid_draws w)))
                     (session_state w))
                  (page w) (calls w)
                  (match session_state w !! "session_id" with
                   | Some _ => uuid_draws w
                   | None => S (uuid_draws w)
                   end)
                  (clock_reads w)).
Proof.
  destruct w as [ss pg cl ud cr]. unfold ensure_key. run_script.
  destruct (ss !! "session_id") as [x|] eqn:Hk.
  - by rewrite bool_decide_eq_true_2 by eauto.
  - rewrite bool_decide_eq_false_2 by by intros [? ?]. done.
Qed.

(** The whole effect of [init_session]. *)
Lemma init_session_run (w : World) :
  init_session E w =
    (Ok (),
     MkWorld (init_store (uuid4_str E (uuid_draws w)) (session_state w))
             (page w) (calls w)
             (match session_state w !! "session_id" with
              | Some _ => uuid_draws w
              | None => S (uuid_draws w)
              end)
             (clock_reads w)).
Proof.
  unfold init_session.
  rewrite ensure_uuid_step, !ensure_key_step, ensure_key_last.
  reflexivity.
Qed.

Lemma lookup_ensure_key (k k' : string) (v : pyval) (ss : gmap string pyval) :
  ensure_key k v ss !! k'
  = match ss !! k' with
    | Some x => Some x
    | None => if decide (k = k') then Some v else None
    end.
Proof.
  unfold ensure_key. destruct (ss !! k) as [x|] eqn:Hk.
  - destruct (ss !! k') eqn:Hk'; [done|]. case_decide; congruence.
  - rewrite lookup_insert. case_decide; [subst; by rewrite Hk|].
    by destruct (ss !! k').
Qed.

Lemma ensure_key_present (k : string) (v : pyval) (ss : gmap string pyval) :
  is_Some (ss !! k) → ensure_key k v ss = ss.
Proof. unfold ensure_key. by intros [x ->]. Qed.

Lemma init_store_keeps (u : string) (ss : gmap string pyval) (k : string) (v : pyval) :
  ss !! k = Some v → init_store u ss !! k = Some v.
Proof.
  intros Hk. unfold init_store. rewrite !lookup_ensure_key. by rewrite Hk.
Qed.

Lemma init_store_other (u : string) (ss : gmap string pyval) (k : string) :
  k ∉ session_keys → init_store u ss !! k = ss !! k.
Proof.
  intros Hk. unfold init_store, session_keys in *. rewrite !lookup_ensure_key.
  destruct (ss !! k); [done|].
  repeat (case_decide; [subst; destruct Hk; repeat constructor|]).
  done.
Qed.

Lemma init_store_filled (u : string) (ss : gmap string pyval) (k : string) :
  k ∈ session_keys → is_Some (init_store u ss !! k).
Proof.
  intros Hk. unfold init_store, session_keys in *. rewrite !lookup_ensure_key.
  destruct (ss !! k); [eauto|].
  repeat (case_decide; [eauto|]).
  repeat (apply elem_of_cons in Hk as [->|Hk]; [done|]).
  by apply elem_of_nil in Hk.
Qed.

Lemma init_store_initialized (u : string) (ss : gmap string pyval) :
  (∀ k, k ∈ session_keys → is_Some (ss !! k)) → init_store u ss = ss.
Proof.
  intros Hkeys. unfold init_store.
  rewrite (ensure_key_present "session_id") by (apply Hkeys; repeat constructor).
  rewrite (ensure_key_present "messages") by (apply Hkeys; repeat constructor).
  rewrite (ensure_key_present "history") by (apply Hkeys; repeat constructor).
  rewrite (ensure_key_present "active_session") by (apply Hkeys; repeat constructor).
  apply ensure_key_present, Hkeys. repeat constructor.
Qed.

(** X1. [init_session] is idempotent: run again on the world it has just
    left, it returns normally and leaves that world exactly as it is (no
    entry rewritten, no uuid drawn, nothing else touched), so calling it
    first on every run of the script never discards session state. *)
Theorem init_session_idempotent (w : World) :
  init_session E (init_session E w).2 = (Ok (), (init_session E w).2).
Proof.
  rewrite (init_session_run w). cbn [snd].
  rewrite init_session_run. cbn [session_state page calls uuid_draws clock_reads].
  rewrite init_store_initialized by (intros k Hk; by apply init_store_filled).
  destruct (init_store_filled (uuid4_str E (uuid_draws w)) (session_state w)
              "session_id") as [x ->]; [repeat constructor|].
  done.
Qed.

(** X2. [init_session] never raises and only adds what is missing: every
    entry already in the store keeps its value, entries under other keys are
    left alone, all five keys the program reads exist afterwards, and a uuid
    is drawn only when [session_id] was absent. *)
Theorem init_session_only_fills (w : World) :
  (init_session E w).1 = Ok ()
  ∧ (∀ k v, session_state w !! k = Some v →
            session_state (init_session E w).2 !! k = Some v)
  ∧ (∀ k, k ∉ session_keys →
          session_state (init_session E w).2 !! k = session_state w !! k)
  ∧ initialized (init_session E w).2
  ∧ (is_Some (session_state w !! "session_id") →
       uuid_draws (init_session E w).2 = uuid_draws w)
  ∧ (session_state w !! "session_id" = None →
       session_state (init_session E w).2 !! "session_id"
         = Some (PStr (uuid4_str E (uuid_draws w)))
       ∧ uuid_draws (init_session E w).2 = S (uuid_draws w)).
Proof.
  rewrite init_session_run. cbn [fst snd session_state uuid_draws].
  split_and!.
  - done.
  - intros k v. apply init_store_keeps.
  - intros k. apply init_store_other.
  - intros k. apply init_store_filled.
  - by intros [x ->].
  - intros Hnone. rewrite Hnone. split; [|done].
    unfold init_store. rewrite !lookup_ensure_key, Hnone. done.
Qed.

End InitSession.

Lemma init_session_only_fills_loaded :
  session_state
    (init_session scenario4_store
       (load_conversation scenario4_store (PStr "abc123")
          (fresh_world scenario4_store)).2).2 !! "session_id"
  = Some (PStr "abc123").
Proof.
  refine (proj1 (proj2 (init_session_only_fills scenario4_store _))
            "session_id" (PStr "abc123") _).
  by vm_compute.
Defined.

(** ** The keys of the session store *)

Section Keys.
Context (E : Env).

Lemma insert_keeps_keys (k : string) (v : pyval) (ss : gmap string pyval) :
  (∀ k', k' ∈ session_keys → is_Some (ss !! k')) →
  ∀ k', k' ∈ session_keys → is_Some (<[k := v]> ss !! k').
Proof.
  intros Hkeys k' Hk'. rewrite lookup_insert. case_decide; [eauto|by apply Hkeys].
Qed.

(** X3. Once the five keys the program reads are in the store, every
    operation keeps them there: after the [init_session] that opens each run
    of [main], no read of [st.session_state] can fail for a missing key. *)
Theorem initialized_preserved (o : operation) (w : World) :
  initialized w → initialized (run E o w).2.
Proof.
  unfold initialized. intros Hkeys.
  destruct o as [| |session_id| |[text|]]; cbn [run].
  - rewrite init_session_run. cbn [snd session_state].
    intros k. apply init_store_filled.
  - destruct (fetch_all_conversations_state E w) as [_ [->|[c ->]]]; [done|].
    by apply insert_keeps_keys.
  - rewrite load_conversation_run. unfold load_world.
    destruct (load_outcome_of E session_id); cbn [snd session_state]; [done|].
    unfold replaced. by repeat apply insert_keeps_keys.
  - rewrite main_clear_chat_run. cbn [snd session_state].
    by repeat apply insert_keeps_keys.
  - cbn [main_chat_turn]. destruct (truthy (PStr text)); [|done].
    destruct (chat_turn_state E text w)
      as [->|(log & extra & Hlog & [->|(script & m & Hsys & Hm & ->)])]; [done|..];
      by repeat apply insert_keeps_keys.
  - done.
Qed.

End Keys.

Lemma initialized_preserved_after_clear :
  initialized (run unreachable_backend OpClear (fresh_world unreachable_backend)).2.
Proof.
  apply (initialized_preserved unreachable_backend OpClear).
  intros k Hk. unfold session_keys in Hk.
  repeat (apply elem_of_cons in Hk as [->|Hk]; [by vm_compute; eauto|]).
  by apply elem_of_nil in Hk.
Defined.

(** ** Refreshing the conversation list *)

Section Refresh.
Context (E : Env).

(** X4. [fetch_all_conversations] makes exactly one call, never raises and
    never touches anything but [history].  [history] is replaced, by the
    [conversations] of the answer and without any notice, when the answer has
    status 200 and a truthy [success] and carries [conversations]; with any
    other answer the whole store is left as it was (the list already shown is
    retained) and exactly one notice is put on the page. *)
Theorem fetch_all_conversations_effect (w : World) :
  (fetch_all_conversations E w).1 = Ok ()
  ∧ calls (fetch_all_conversations E w).2 = calls w ++ [GET_conversations]
  ∧ (∀ k, k ≠ "history" →
       session_state (fetch_all_conversations E w).2 !! k = session_state w !! k)
  ∧ (∀ conversations, conversations_served E conversations →
       session_state (fetch_all_conversations E w).2
         = <["history" := conversations]> (session_state w)
       ∧ page (fetch_all_conversations E w).2 = page w)
  ∧ ((∀ conversations, ¬ conversations_served E conversations) →
       session_state (fetch_all_conversations E w).2 = session_state w
       ∧ ∃ notice, page (fetch_all_conversations E w).2 = page w ++ [notice]).
Proof.
  unfold conversations_served, fetch_all_conversations. run_script.
  destruct (http E GET_conversations) as [|[status body]] eqn:Hhttp; run_script.
  { split_and!; try done; [by intros ? (?&?&?&?&?)|eauto]. }
  cbn [status_code json_body]. case_bool_decide as Hstatus; run_script.
  2:{ split_and!; try done; [|eauto].
      intros ? (r&?&?&[= <-]&?&?). done. }
  destruct body as [data|]; run_script.
  2:{ split_and!; try done; [|eauto].
      intros ? (r&?&?&[= <-]&?&?&?). done. }
  destruct (dict_get data "success") as [success|] eqn:Hsuccess; run_script.
  2:{ split_and!; try done; [|eauto].
      intros ? (r&?&?&[= <-]&?&[= <-]&?&?). congruence. }
  destruct (truthy success) eqn:Htruthy; run_script.
  2:{ split_and!; try done; [|eauto].
      intros ? (r&?&?&[= <-]&?&[= <-]&?&?&?). congruence. }
  destruct (subscript data "conversations") as [conversations|] eqn:Hconv;
    run_script.
  2:{ split_and!; try done; [|eauto].
      intros ? (r&?&?&[= <-]&?&[= <-]&?&?&?). congruence. }
  split_and!; try done.
  - intros k Hk. by rewrite lookup_insert_ne.
  - intros c (r&?&?&[= <-]&?&[= <-]&?&?&?). split; [|done]. congruence.
  - intros Hnone. destruct (Hnone conversations).
    exists (Response status (Some data)), data, success. by subst.
Qed.

End Refresh.

(** ** Switching conversations *)

Section Switch.
Context (E : Env).

Lemma conversation_served_outcome (session_id messages : pyval) :
  conversation_served E session_id messages →
  load_outcome_of E session_id
  = match extract_artifact messages with
    | Ok dag => Loaded messages dag None
    | Raise e => Loaded messages PNone (Some e)
    end.
Proof.
  intros (r & body & success & Hhttp & Hstatus & Hbody & Hsuccess & Htruthy & Hmsgs).
  unfold load_outcome_of.
  rewrite Hhttp, bool_decide_eq_true_2, Hbody, Hsuccess, Htruthy, Hmsgs by done.
  done.
Qed.

(** X5. When the store serves the conversation (status 200, truthy
    [success], [messages] present), [load_conversation] makes the one call
    for that id, takes the served messages verbatim as the log, sets both
    [session_id] and [active_session] to the requested id, and leaves every
    other entry, [history] included, as it was.  The artifact is what the
    scan selects from the served messages, or [None] if the scan raises; when
    the scan does not raise nothing is written to the page, even for an empty
    message list. *)
Theorem load_conversation_switches (session_id messages : pyval) (w : World) :
  conversation_served E session_id messages →
  calls (load_conversation E session_id w).2
    = calls w ++ [GET_chat_history session_id]
  ∧ message_log (load_conversation E session_id w).2 = Some messages
  ∧ session_state (load_conversation E session_id w).2 !! "session_id"
      = Some session_id
  ∧ session_state (load_conversation E session_id w).2 !! "active_session"
      = Some session_id
  ∧ artifact (load_conversation E session_id w).2
      = Some (match extract_artifact messages with
              | Ok dag => dag
              | Raise _ => PNone
              end)
  ∧ (∀ k, k ∉ ["messages"; "session_id"; "active_session"; "generated_dag"] →
       session_state (load_conversation E session_id w).2 !! k
         = session_state w !! k)
  ∧ (∀ dag, extract_artifact messages = Ok dag →
       page (load_conversation E session_id w).2 = page w).
Proof.
  intros Hserved. rewrite load_conversation_run. unfold load_world.
  rewrite (conversation_served_outcome _ _ Hserved).
  unfold message_log, artifact.
  destruct (extract_artifact messages) as [dag|e];
    cbn [snd session_state page calls]; unfold replaced;
    (split_and!; [done|by simplify_map_eq..| |]).
  - intros k Hk. rewrite !lookup_insert_ne; [done|..];
      intros <-; apply Hk; repeat constructor.
  - intros _ _. by rewrite app_nil_r.
  - intros k Hk. rewrite !lookup_insert_ne; [done|..];
      intros <-; apply Hk; repeat constructor.
  - by intros dag.
Qed.

(** X6. The scan stops at the newest message that qualifies: when the served
    log ends with a system message whose content contains ["def "], followed
    only by well-formed messages that do not qualify, the load selects that
    content and reports nothing, whatever the older entries of the log are,
    malformed ones included. *)
Theorem load_ignores_older_entries (session_id : pyval) (w : World)
    (older : list pyval) (m : Message) (newer : list Message) :
  conversation_served E session_id
    (PList (older ++ to_py m :: (to_py <$> newer))) →
  holds_dag m →
  Forall (λ x, ¬ holds_dag x) newer →
  artifact (load_conversation E session_id w).2 = Some (PStr (content m))
  ∧ page (load_conversation E session_id w).2 = page w.
Proof.
  intros Hserved Hm Hnewer.
  assert (extract_artifact (PList (older ++ to_py m :: (to_py <$> newer)))
          = Ok (PStr (content m))) as Hscan.
  { unfold extract_artifact, py_reversed.
    rewrite reverse_app, reverse_cons, <- fmap_reverse, <- !app_assoc.
    rewrite first_dag_skip by by apply Forall_reverse.
    cbn [app]. by rewrite first_dag_hit. }
  rewrite load_conversation_run. unfold load_world.
  rewrite (conversation_served_outcome _ _ Hserved), Hscan.
  unfold artifact, replaced. cbn [snd session_state page].
  split; [by simplify_map_eq|by rewrite app_nil_r].
Qed.

End Switch.

(** ** Rendering the log *)

Ltac run_display :=
  cbv [mbind R_bind mret R_ret show evaluate];
  cbn [fst snd].

Section Display.

Lemma first_dag_app (a b : list pyval) :
  first_dag (a ++ b)
  = match first_dag a with
    | Ok None => first_dag b
    | r => r
    end.
Proof.
  induction a as [|msg a IH]; [done|]. cbn [app first_dag].
  destruct (subscript msg "message_type") as [mt|]; [|done].
  destruct (eq_str mt "system"); [|done].
  destruct (subscript msg "content") as [c|]; [|done].
  by destruct (py_in "def " c) as [[]|].
Qed.

Lemma py_reversed_iter (v : pyval) :
  py_reversed v
  = match py_iter v with
    | Ok items => Ok (reverse items)
    | Raise e => Raise e
    end.
Proof. by destruct v. Qed.

Lemma last_code_app (a b : list chat_event) :
  last_code (a ++ b)
  = match last_code b with
    | Some body => Some body
    | None => last_code a
    end.
Proof.
  unfold last_code. rewrite omap_app.
  destruct (omap code_body b) as [|x l] using rev_ind.
  - by rewrite app_nil_r.
  - by rewrite app_assoc, !last_snoc.
Qed.

(** A message that is rendered without an exception adds its two calls to
    the page, and the scan treats it the way it was rendered. *)
Lemma display_message_shown (message : pyval) (shown shown' : list chat_event) :
  display_message message shown = (Ok (), shown') →
  ∃ evs, shown' = shown ++ evs
         ∧ first_dag [message] = Ok (last_code evs).
Proof.
  unfold display_message. run_display. cbn [first_dag].
  destruct (subscript message "message_type") as [mt|]; [|done].
  destruct (eq_str mt "system").
  - destruct (subscript message "content") as [c|]; [|done].
    destruct (py_in "def " c) as [[]|]; [| |done]; intros [= <-];
      eexists [_; _]; by rewrite <- app_assoc.
  - destruct (subscript message "content") as [c|]; [|done].
    intros [= <-]. eexists [_; _]. by rewrite <- app_assoc.
Qed.

Lemma display_items_shown (items : list pyval) (shown shown' : list chat_event) :
  display_items items shown = (Ok (), shown') →
  ∃ evs, shown' = shown ++ evs
         ∧ first_dag (reverse items) = Ok (last_code evs).
Proof.
  revert shown. induction items as [|message rest IH]; intros shown.
  - intros [= <-]. exists []. by rewrite app_nil_r.
  - cbn [display_items]. run_display.
    destruct (display_message message shown) as [[[]|e] shown1] eqn:Hm; [|done].
    apply display_message_shown in Hm as (evs1 & -> & Hfirst).
    intros (evs2 & -> & Hrest)%IH.
    exists (evs1 ++ evs2). split; [by rewrite app_assoc|].
    rewrite reverse_cons, first_dag_app, Hrest, last_code_app.
    by destruct (last_code evs2).
Qed.

(** X7. What the page shows as code and what a reload would select agree:
    whenever [display_chat_history] renders the log without an exception,
    the scan of [load_conversation] over that log does not raise either, and
    it selects exactly the body of the last block rendered as code, or
    nothing when no block was rendered as code. *)
Theorem display_agrees_with_scan (w : World) (shown : list chat_event) :
  display_chat_history w [] = (Ok (), shown) →
  ∃ log, message_log w = Some log
         ∧ extract_artifact log = Ok (default PNone (last_code shown)).
Proof.
  unfold display_chat_history, message_log.
  destruct (session_state w !! "messages") as [log|]; [|done].
  run_display. intros Hshown. exists log. split; [done|].
  unfold extract_artifact. rewrite py_reversed_iter.
  destruct (py_iter log) as [items|]; [|done].
  apply display_items_shown in Hshown as (evs & -> & Hscan).
  rewrite Hscan. cbn [app]. by destruct (last_code evs).
Qed.

Lemma display_bubble (m : Message) (shown : list chat_event) :
  display_message (to_py m) shown = (Ok (), shown ++ bubble m).
Proof.
  unfold display_message, to_py, bubble. run_display.
  rewrite subscript_message_type, subscript_message_content. cbn [eq_str].
  case_bool_decide; cbn [andb py_in]; [|by rewrite <- app_assoc].
  destruct (str_contains "def " (content m)); by rewrite <- app_assoc.
Qed.

(** X8. A log of well-formed messages is rendered without an exception, one
    bubble per message and in the order of the log; each bubble carries the
    message's type as its name and the message's content, as Python code
    when the message is a system message containing ["def "] and as
    markdown otherwise. *)
Theorem display_renders_log (w : World) (ms : list Message) :
  message_log w = Some (PList (to_py <$> ms)) →
  display_chat_history w [] = (Ok (), ms ≫= bubble).
Proof.
  unfold display_chat_history, message_log. intros ->. run_display.
  cbn [py_iter].
  assert (∀ shown, display_items (to_py <$> ms) shown
                   = (Ok (), shown ++ (ms ≫= bubble))) as Hitems.
  { induction ms as [|m ms IH]; intros shown.
    - by rewrite app_nil_r.
    - cbn [fmap list_fmap display_items]. run_display.
      rewrite display_bubble, IH. by rewrite <- app_assoc. }
  apply Hitems.
Qed.

End Display.

(** ** The paths of a chat turn *)

Ltac two_calls :=
  split_and!; [done..|cbn [calls]; by rewrite <- app_assoc].

Section TurnPaths.
Context (E : Env).

(** Every run of the turn takes one of the paths of [turn_path]. *)
Lemma chat_turn_path (text : string) (w : World) :
  turn_path E text w (chat_turn E text w).1 (chat_turn E text w).2.
Proof.
  unfold validated. run_turn.
  destruct (session_state w !! "messages") as [[| | | | |log|]|] eqn:Hlog;
    run_turn;
    try (apply turn_without_log; [unfold message_log; congruence|done..]).
  destruct (http E (POST_validate_input text)) as [|[status body]] eqn:Hv;
    run_turn.
  { eapply turn_lost; [done..|by left]. }
  case_bool_decide as Hstatus; run_turn.
  2:{ eapply (turn_answered _ _ _ _ _ log); [done|done| |left; eauto].
      by rewrite insert_insert_eq, <- app_assoc. }
  destruct body as [data|]; run_turn.
  2:{ eapply turn_lost; [done..|by left]. }
  destruct (dict_get data "valid") as [valid|] eqn:Hvalid; run_turn.
  2:{ eapply turn_lost; [done..|by left]. }
  destruct (truthy valid) eqn:Htruthy; run_turn.
  2:{ destruct (dict_get data "feedback") as [got|] eqn:Hgot; run_turn.
      - eapply (turn_answered _ _ _ _ _ log); [done|done| |].
        + by rewrite insert_insert_eq, <- app_assoc.
        + right. left. by eexists _, data, valid, got.
      - eapply turn_lost; [done..|by left]. }
  assert (validated E text) as Hvalidated.
  { by eexists _, data, valid. }
  destruct (session_state w !! "session_id") as [session_id|] eqn:Hsid; run_turn.
  2:{ eapply turn_lost; [done..|by left]. }
  destruct (http E (POST_generate_dag text session_id)) as [|[status' body']]
    eqn:Hg; run_turn.
  { eapply turn_lost; [done..|right; exists session_id; two_calls]. }
  case_bool_decide as Hstatus'; run_turn.
  2:{ eapply (turn_answered _ _ _ _ _ log); [done|done| |].
      - by rewrite insert_insert_eq, <- app_assoc.
      - right. right. eexists session_id, _. two_calls. }
  destruct body' as [dag_data|]; run_turn.
  2:{ eapply turn_lost; [done..|right; exists session_id; two_calls]. }
  destruct (subscript dag_data "dag_script") as [dag_script|] eqn:Hscript;
    run_turn.
  2:{ eapply turn_lost; [done..|right; exists session_id; two_calls]. }
  eapply (turn_generated _ _ _ _ _ log session_id dag_script); try done.
  - rewrite (insert_insert_ne _ "generated_dag" "messages") by done.
    by rewrite insert_insert_eq, <- app_assoc.
  - cbn [calls]. by rewrite <- app_assoc.
Qed.

(** X9. Generation is never attempted without a positive validation.  On a
    session whose log is a list, the turn always calls the validation
    service first, with the submitted text; it makes a second call only when
    validation answered 200 with a truthy [valid], and that call is the
    generation request for the same text and the session's current
    [session_id].  No other call is ever made. *)
Theorem generation_needs_validation (text : string) (w : World) (log : list pyval) :
  message_log w = Some (PList log) →
  calls (chat_turn E text w).2 = calls w ++ [POST_validate_input text]
  ∨ ∃ session_id,
      validated E text
      ∧ session_state w !! "session_id" = Some session_id
      ∧ calls (chat_turn E text w).2
          = calls w ++ [POST_validate_input text;
                        POST_generate_dag text session_id].
Proof.
  intros Hlog.
  destruct (chat_turn_path text w)
    as [Hnone _ _ _
       | log' e _ _ _ Hcalls
       | log' notice _ _ _ [(rv & _ & _ & _ & Hcalls)
                           |[(rv & body & valid & got & _ & _ & _ & _ & _ & _ & _ & Hcalls)
                            |(sid & rg & Hv & Hsid & _ & _ & _ & Hcalls)]]
       | log' sid script rg body _ _ Hv Hsid _ _ _ _ _ Hcalls].
  - by destruct (Hnone log).
  - done.
  - by left.
  - by left.
  - right. by exists sid.
  - right. by exists sid.
Qed.

(** X10. A turn is confined to the log and the artifact: every other entry
    of the store ([session_id], [active_session], [history]) and the uuid
    generator are left as they were; the log is only ever extended at its
    end; and the artifact changes only when validation passed and the
    generation service answered 200 with a [dag_script], which is then the
    new artifact. *)
Theorem turn_is_confined (text : string) (w : World) :
  (∀ k, k ≠ "messages" → k ≠ "generated_dag" →
     session_state (chat_turn E text w).2 !! k = session_state w !! k)
  ∧ uuid_draws (chat_turn E text w).2 = uuid_draws w
  ∧ (message_log (chat_turn E text w).2 = message_log w
     ∨ ∃ log extra,
         message_log w = Some (PList log)
         ∧ message_log (chat_turn E text w).2 = Some (PList (log ++ extra)))
  ∧ (artifact (chat_turn E text w).2 ≠ artifact w →
       (chat_turn E text w).1 = Ok ()
       ∧ validated E text
       ∧ ∃ session_id rg body script,
           session_state w !! "session_id" = Some session_id
           ∧ http E (POST_generate_dag text session_id) = Responded rg
           ∧ status_code rg = 200%Z
           ∧ json_body rg = Some body
           ∧ subscript body "dag_script" = Ok script
           ∧ artifact (chat_turn E text w).2 = Some script).
Proof.
  unfold message_log, artifact.
  split_and!; [| apply (chat_turn_outcomes E text w) | |].
  - intros k Hm Hd.
    destruct (chat_turn_path text w)
      as [_ _ -> _ | log e _ _ -> _ | log notice _ _ -> _
         | log sid script rg body _ _ _ _ _ _ _ _ -> _];
      by rewrite ?lookup_insert_ne by done.
  - destruct (chat_turn_path text w)
      as [_ _ -> _ | log e Hlog _ -> _ | log notice Hlog _ -> _
         | log sid script rg body Hlog _ _ _ _ _ _ _ -> _];
      [by left|right; exists log; eexists; by rewrite lookup_insert_eq..].
  - destruct (chat_turn_path text w)
      as [_ _ -> _ | log e _ _ -> _ | log notice _ _ -> _
         | log sid script rg body _ Hok Hv Hsid Hg Hstatus Hbody Hscript -> _];
      rewrite ?lookup_insert_ne by done; [done..|].
    intros _. split_and!; [done..|].
    exists sid, rg, body, script. by rewrite lookup_insert_eq.
Qed.

(** X11. When what the store holds as the log is not a list, the turn ends
    on its first statement about the log: [AttributeError] for the missing
    [append], with no message appended, no call made and the store left as
    it was. *)
Theorem turn_needs_a_list_log (text : string) (w : World) :
  (∀ log, message_log w ≠ Some (PList log)) →
  (chat_turn E text w).1 = Raise AttributeError
  ∧ session_state (chat_turn E text w).2 = session_state w
  ∧ calls (chat_turn E text w).2 = calls w.
Proof.
  intros Hnone.
  destruct (chat_turn_path text w)
    as [_ Hr Hs Hc | log e Hlog _ _ _ | log notice Hlog _ _ _
       | log sid script rg body Hlog _ _ _ _ _ _ _ _ _];
    [done|by destruct (Hnone log)..].
Qed.

End TurnPaths.

(** ** The artifact and the scan of the log *)

Section InSync.
Context (E : Env).

Lemma first_dag_user (text : string) (n : nat) (rest : list pyval) :
  first_dag (user_message E text n :: rest) = first_dag rest.
Proof.
  unfold user_message. cbn [first_dag]. rewrite subscript_message_type.
  cbn [eq_str]. by rewrite bool_decide_eq_false_2.
Qed.

Lemma first_dag_system (c : pyval) (n : nat) (rest : list pyval) :
  first_dag (system_message E c n :: rest)
  = match py_in "def " c with
    | Raise e => Raise e
    | Ok true => Ok (Some c)
    | Ok false => first_dag rest
    end.
Proof.
  unfold system_message. cbn [first_dag].
  rewrite subscript_message_type, subscript_message_content.
  cbn [eq_str]. by rewrite bool_decide_eq_true_2.
Qed.

(** The scan after a user message has been appended. *)
Lemma extract_artifact_user (log : list pyval) (text : string) (n : nat) :
  extract_artifact (PList (log ++ [user_message E text n]))
  = extract_artifact (PList log).
Proof.
  unfold extract_artifact, py_reversed.
  by rewrite reverse_app, reverse_singleton, <- app_comm_cons, first_dag_user.
Qed.

(** The scan after a user message and a system reply have been appended. *)
Lemma extract_artifact_reply (log : list pyval) (text : string) (c : pyval) (n : nat) :
  extract_artifact (PList (log ++ [user_message E text n; system_message E c n]))
  = match py_in "def " c with
    | Raise e => Raise e
    | Ok true => Ok c
    | Ok false => extract_artifact (PList log)
    end.
Proof.
  unfold extract_artifact, py_reversed.
  rewrite reverse_app. cbn [reverse rev_append app].
  rewrite first_dag_system, first_dag_user.
  by destruct (py_in "def " c) as [[]|].
Qed.

Lemma unmarked_text (s : string) :
  ¬ occurs_in "def " s → py_in "def " (PStr s) = Ok false.
Proof.
  intros Hs. cbn [py_in]. destruct (str_contains "def " s) eqn:Hc; [|done].
  by apply str_contains_spec in Hc.
Qed.

(** X12. The artifact stays in sync with the log across a turn, on every
    path of the turn: if the artifact held is what the scan selects from the
    log held, and the backend keeps to its side (the scripts it generates
    are texts containing ["def "], the feedback it gives is text without
    it), then after the turn the artifact is again what the scan selects
    from the new log. *)
Theorem turn_keeps_artifact_in_sync (text : string) (w : World) :
  in_sync w →
  scripts_marked E text →
  feedback_unmarked E text →
  in_sync (chat_turn E text w).2.
Proof.
  intros (log0 & dag & Hlog0 & Hdag & Hscan) Hscripts Hfeedback.
  unfold in_sync, message_log, artifact in *.
  destruct (chat_turn_path E text w)
    as [_ _ -> _
       | log e Hlog _ -> _
       | log notice Hlog _ -> Hwhy
       | log sid script rg body Hlog _ _ _ Hg _ Hbody Hscript -> _].
  - by exists log0, dag.
  - unfold message_log in Hlog. rewrite Hlog in Hlog0. injection Hlog0 as <-.
    eexists _, dag. rewrite lookup_insert_eq, lookup_insert_ne by done.
    split_and!; [done..|]. by rewrite extract_artifact_user.
  - unfold message_log in Hlog. rewrite Hlog in Hlog0. injection Hlog0 as <-.
    eexists _, dag. rewrite lookup_insert_eq, lookup_insert_ne by done.
    split_and!; [done..|]. rewrite extract_artifact_reply.
    assert (py_in "def " (PStr notice) = Ok false) as ->; [|done].
    destruct Hwhy
      as [(rv & _ & _ & -> & _)
         |[(rv & vbody & valid & got & Hv & _ & Hvbody & _ & _ & Hgot & -> & _)
          |(sid & rg & _ & _ & _ & _ & -> & _)]]; [done| |done].
    destruct (truthy got) eqn:Htruthy; [|done].
    destruct (Hfeedback rv vbody got Hv Hvbody Hgot Htruthy) as (s & -> & Hs).
    by apply unmarked_text.
  - unfold message_log in Hlog. rewrite Hlog in Hlog0. injection Hlog0 as <-.
    destruct (Hscripts sid rg body script Hg Hbody Hscript) as (code & -> & Hcode).
    eexists _, (PStr code).
    rewrite lookup_insert_eq, lookup_insert_ne, lookup_insert_eq by done.
    split_and!; [done..|]. rewrite extract_artifact_reply. cbn [py_in].
    apply str_contains_spec in Hcode. by rewrite Hcode.
Qed.


End InSync.

(** ** Turns after a switch or a clear *)

Section Composition.
Context (E : Env).

(** With a list for a log and validation passed, the turn makes both calls,
    the second one keyed by the session id held. *)
Lemma validated_turn_calls (text : string) (w : World) (log : list pyval)
    (session_id : pyval) :
  message_log w = Some (PList log) →
  session_state w !! "session_id" = Some session_id →
  validated E text →
  calls (chat_turn E text w).2
  = calls w ++ [POST_validate_input text; POST_generate_dag text session_id].
Proof.
  intros Hlog Hsid (r & body & valid & Hhttp & Hstatus & Hbody & Hvalid & Htruthy).
  unfold message_log in Hlog.
  run_turn. rewrite Hlog. run_turn. rewrite Hhttp. run_turn.
  rewrite bool_decide_eq_true_2, Hbody by done. run_turn.
  rewrite Hvalid. run_turn. rewrite Htruthy. run_turn. rewrite Hsid. run_turn.
  destruct (http E (POST_generate_dag text session_id)) as [|[status' body']];
    run_turn; [by (cbn [calls]; rewrite <- app_assoc)|].
  case_bool_decide; run_turn; [|by (cbn [calls]; rewrite <- app_assoc)].
  destruct body' as [dag_data|]; run_turn; [|by (cbn [calls]; rewrite <- app_assoc)].
  destruct (subscript dag_data "dag_script"); run_turn; by (cbn [calls]; rewrite <- app_assoc).
Qed.

(** With a list for a log, the turn's user message is appended to it, and at
    most one more message after it. *)
Lemma turn_extends_log (text : string) (w : World) (log : list pyval) :
  message_log w = Some (PList log) →
  ∃ reply,
    message_log (chat_turn E text w).2
    = Some (PList (log ++ user_message E text (clock_reads w) :: reply))
    ∧ length reply ≤ 1.
Proof.
  intros Hlog. unfold message_log in *.
  destruct (chat_turn_path E text w)
    as [Hnone _ _ _
       | log' e Hlog' _ -> _
       | log' notice Hlog' _ -> _
       | log' sid script rg body Hlog' _ _ _ _ _ _ _ -> _].
  - by destruct (Hnone log).
  - unfold message_log in Hlog'. rewrite Hlog in Hlog'. injection Hlog' as <-.
    exists []. rewrite lookup_insert_eq. split; [done|cbn; lia].
  - unfold message_log in Hlog'. rewrite Hlog in Hlog'. injection Hlog' as <-.
    eexists [_]. rewrite lookup_insert_eq. split; [done|cbn; lia].
  - unfold message_log in Hlog'. rewrite Hlog in Hlog'. injection Hlog' as <-.
    eexists [_]. rewrite lookup_insert_eq. split; [done|cbn; lia].
Qed.

(** X14. After a switch, the conversation continues under the loaded id:
    when the store has served conversation [session_id] with a list of
    messages, a following turn that passes validation sends its generation
    request with that [session_id], and appends its messages to the loaded
    log; the user message reads back with type ["user"] and the submitted
    text as its content. *)
Theorem turn_after_switch (session_id : pyval) (messages : list pyval)
    (text : string) (w : World) :
  conversation_served E session_id (PList messages) →
  validated E text →
  calls (chat_turn E text (load_conversation E session_id w).2).2
    = calls w ++ [GET_chat_history session_id;
                  POST_validate_input text;
                  POST_generate_dag text session_id]
  ∧ (∃ reply,
      message_log (chat_turn E text (load_conversation E session_id w).2).2
      = Some (PList (messages ++ user_message E text (clock_reads w) :: reply))
      ∧ length reply ≤ 1)
  ∧ reads_as "user" (PStr text) (user_message E text (clock_reads w)).
Proof.
  intros Hserved Hvalidated.
  assert (message_log (load_conversation E session_id w).2 = Some (PList messages)
          ∧ session_state (load_conversation E session_id w).2 !! "session_id"
            = Some session_id
          ∧ calls (load_conversation E session_id w).2
            = calls w ++ [GET_chat_history session_id]
          ∧ clock_reads (load_conversation E session_id w).2 = clock_reads w)
    as (Hlog & Hsid & Hcalls & Hclock).
  { rewrite load_conversation_run. unfold load_world, message_log.
    rewrite (conversation_served_outcome _ _ _ Hserved).
    destruct (extract_artifact (PList messages));
      cbn [snd session_state calls clock_reads]; unfold replaced;
      by simplify_map_eq. }
  split_and!.
  - rewrite (validated_turn_calls _ _ _ _ Hlog Hsid Hvalidated), Hcalls.
    by rewrite <- app_assoc.
  - rewrite <- Hclock. by apply turn_extends_log.
  - apply message_reads_as.
Qed.

(** X15. After a clear, the conversation restarts under the new id: a
    following turn that passes validation sends its generation request with
    the identifier the clear has just drawn, and the log then holds the
    messages of that turn only; the user message reads back with type
    ["user"] and the submitted text as its content. *)
Theorem turn_after_clear (text : string) (w : World) :
  validated E text →
  calls (chat_turn E text (main_clear_chat E w).2).2
    = calls w ++ [POST_validate_input text;
                  POST_generate_dag text (PStr (uuid4_str E (uuid_draws w)))]
  ∧ (∃ reply,
      message_log (chat_turn E text (main_clear_chat E w).2).2
      = Some (PList (user_message E text (clock_reads w) :: reply))
      ∧ length reply ≤ 1)
  ∧ reads_as "user" (PStr text) (user_message E text (clock_reads w)).
Proof.
  intros Hvalidated.
  assert (message_log (main_clear_chat E w).2 = Some (PList [])
          ∧ session_state (main_clear_chat E w).2 !! "session_id"
            = Some (PStr (uuid4_str E (uuid_draws w)))
          ∧ calls (main_clear_chat E w).2 = calls w
          ∧ clock_reads (main_clear_chat E w).2 = clock_reads w)
    as (Hlog & Hsid & Hcalls & Hclock).
  { rewrite main_clear_chat_run. unfold message_log.
    cbn [snd session_state calls clock_reads]. by simplify_map_eq. }
  split_and!.
  - by rewrite (validated_turn_calls _ _ _ _ Hlog Hsid Hvalidated), Hcalls.
  - rewrite <- Hclock. by apply (turn_extends_log text _ []).
  - apply message_reads_as.
Qed.

End Composition.

(** ** Exporting the artifact *)

Section FileNames.

Lemma digit_inj (a b : Z) : digit a = digit b → (a mod 10 = b mod 10)%Z.
Proof.
  unfold digit. intros H. apply (f_equal Ascii.N_of_ascii) in H.
  pose proof (Z.mod_pos_bound a 10 eq_refl) as Ha.
  pose proof (Z.mod_pos_bound b 10 eq_refl) as Hb.
  rewrite !Ascii.N_ascii_embedding in H; lia.
Qed.

(** On the calendar, the stamp determines the date and time to the second. *)
Lemma strftime_stamp_inj (dt1 dt2 : datetime) :
  on_calendar dt1 → on_calendar dt2 →
  strftime_stamp dt1 = strftime_stamp dt2 → dt1 = dt2.
Proof.
  destruct dt1 as [y1 mo1 d1 h1 mi1 s1], dt2 as [y2 mo2 d2 h2 mi2 s2].
  unfold on_calendar. cbn [year month day hour minute second].
  intros Hc1 Hc2 Heq.
  cbv [strftime_stamp four_digits two_digits String.append
       year month day hour minute second] in Heq.
  injection Heq as Hy3 Hy2 Hy1 Hy0 Hmo1 Hmo0 Hd1 Hd0 Hh1 Hh0 Hmi1 Hmi0 Hs1 Hs0.
  apply digit_inj in Hy3, Hy2, Hy1, Hy0, Hmo1, Hmo0, Hd1, Hd0,
    Hh1, Hh0, Hmi1, Hmi0, Hs1, Hs0.
  f_equal; Z.div_mod_to_equations; lia.
Qed.

Lemma export_name_inj (dt1 dt2 : datetime) :
  on_calendar dt1 → on_calendar dt2 →
  "generated_dag_" +:+ strftime_stamp dt1 +:+ ".py"
  = "generated_dag_" +:+ strftime_stamp dt2 +:+ ".py" →
  dt1 = dt2.
Proof.
  intros Hc1 Hc2 Heq. apply strftime_stamp_inj; [done..|].
  cbv [strftime_stamp four_digits two_digits String.append] in Heq |- *.
  injection Heq. intros. congruence.
Qed.

End FileNames.

Section Download.
Context (E : Env) (clock : nat → datetime).

(** A button is obtained exactly for a text, on a session with an id. *)
Lemma download_dag_button_ok (clicked : bool) (dag : pyval) (w : World)
    (b : download_button) :
  (download_dag_button E clock clicked dag w).1 = Ok b →
  ∃ code session_id,
    dag = PStr code
    ∧ session_state w !! "session_id" = Some session_id
    ∧ b = {| label := "⬇️ Download DAG Script";
             data := code;
             file_name := "generated_dag_"
                          +:+ strftime_stamp (clock (clock_reads w)) +:+ ".py";
             mime := "text/x-python";
             key := "download_dag_" +:+ fstring E session_id |}.
Proof.
  unfold download_dag_button, st_download_button, datetime_now. run_script.
  destruct dag as [| | | |code| |]; try done. cbn [encode_utf8].
  destruct (session_state w !! "session_id") as [session_id|]; [|done].
  intros [= <-]. by exists code, session_id.
Qed.

(** X16. Export names tell the seconds apart: whenever two calls of
    [download_dag_button] produce a button, at clock readings on the
    calendar, each file name is 32 characters long
    ([generated_dag_YYYYMMDD_HHMMSS.py]), and the two names are equal exactly
    when the two readings agree to the second. *)
Theorem export_names_tell_seconds_apart (clicked1 clicked2 : bool)
    (dag1 dag2 : pyval) (w1 w2 : World) (b1 b2 : download_button) :
  on_calendar (clock (clock_reads w1)) →
  on_calendar (clock (clock_reads w2)) →
  (download_dag_button E clock clicked1 dag1 w1).1 = Ok b1 →
  (download_dag_button E clock clicked2 dag2 w2).1 = Ok b2 →
  String.length (file_name b1) = 32
  ∧ (file_name b1 = file_name b2 ↔ clock (clock_reads w1) = clock (clock_reads w2)).
Proof.
  intros Hc1 Hc2 (code1 & sid1 & _ & _ & ->)%download_dag_button_ok
    (code2 & sid2 & _ & _ & ->)%download_dag_button_ok.
  cbn [file_name]. split; [done|]. split.
  - by apply export_name_inj.
  - by intros ->.
Qed.

(** The key of the download button is none of the keys the program reads. *)
Lemma widget_key_is_not_a_session_key (suffix k : string) :
  k ∈ session_keys → "download_dag_" +:+ suffix ≠ k.
Proof.
  unfold session_keys. intros Hk Heq. subst k.
  repeat (apply elem_of_cons in Hk as [Hk|Hk];
          [cbv [String.append] in Hk; discriminate|]).
  by apply elem_of_nil in Hk.
Qed.

(** X17. The download is offered exactly for a truthy artifact, and only a
    text can be exported.  With a falsy artifact ([None], the empty text)
    nothing is offered and nothing changes.  With a non-empty text, one
    button is asked for: its data is the text itself, its key carries the
    session id, its name the time of the call; the session store gains the
    entry Streamlit keeps for the keyed button, [download_dag_<session_id>],
    holding whether it was clicked, and nothing else changes: the five
    entries the program reads are as they were.  With a truthy artifact that
    is not a text, the export raises [AttributeError] on [encode], before
    the button is asked for, and the store is left as it was. *)
Theorem download_offered_for_text (clicked : bool) (w : World)
    (dag session_id : pyval) :
  artifact w = Some dag →
  session_state w !! "session_id" = Some session_id →
  (truthy dag = false → main_download E clock clicked w = (Ok None, w))
  ∧ (∀ code, dag = PStr code → code ≠ "" →
       (main_download E clock clicked w).1
         = Ok (Some {| label := "⬇️ Download DAG Script";
                       data := code;
                       file_name := "generated_dag_"
                                    +:+ strftime_stamp (clock (clock_reads w))
                                    +:+ ".py";
                       mime := "text/x-python";
                       key := "download_dag_" +:+ fstring E session_id |})
       ∧ session_state (main_download E clock clicked w).2
         = <["download_dag_" +:+ fstring E session_id := PBool clicked]>
             (session_state w)
       ∧ (∀ k, k ∈ session_keys →
            session_state (main_download E clock clicked w).2 !! k
            = session_state w !! k))
  ∧ (truthy dag = true → (∀ code, dag ≠ PStr code) →
       (main_download E clock clicked w).1 = Raise AttributeError
       ∧ session_state (main_download E clock clicked w).2 = session_state w).
Proof.
  unfold artifact. intros Hdag Hsid.
  unfold main_download, download_dag_button, st_download_button, datetime_now.
  run_script. rewrite Hdag. run_script. split_and!.
  - intros ->. by destruct w.
  - intros code -> Hcode. rewrite truthy_nonempty by done. run_script.
    rewrite Hdag. run_script. cbn [encode_utf8]. rewrite Hsid.
    cbn [key fst snd session_state]. split_and!; [done..|].
    intros k Hk. apply lookup_insert_ne.
    by apply widget_key_is_not_a_session_key.
  - intros -> Hnot. run_script. rewrite Hdag. run_script.
    destruct dag as [| | | |code| |]; try done. by destruct (Hnot code).
Qed.

(** X18. From generation to download and back: after a turn in which
    validation passed and generation returned a non-empty script text, the
    download is offered, with that script as its data and the session id in
    its key; once the chat is cleared it is no longer offered. *)
Theorem download_follows_generation (clicked : bool) (w : World)
    (text : string) (log : list pyval) (session_id : pyval)
    (body : gmap string pyval) (code : string) :
  message_log w = Some (PList log) →
  session_state w !! "session_id" = Some session_id →
  validated E text →
  http E (POST_generate_dag text session_id)
    = Responded (Response 200 (Some (PDict body))) →
  body !! "dag_script" = Some (PStr code) →
  code ≠ "" →
  (∃ b, (main_download E clock clicked (chat_turn E text w).2).1 = Ok (Some b)
        ∧ data b = code
        ∧ key b = "download_dag_" +:+ fstring E session_id)
  ∧ (main_download E clock clicked
       (main_clear_chat E (chat_turn E text w).2).2).1
    = Ok None.
Proof.
  intros Hlog Hsid (r & vbody & valid & Hhttp & Hstatus & Hvbody & Hvalid & Htruthy)
    Hgenerate Hscript Hcode.
  unfold message_log in Hlog.
  assert (session_state (chat_turn E text w).2 !! "generated_dag" = Some (PStr code)
          ∧ session_state (chat_turn E text w).2 !! "session_id" = Some session_id)
    as [Hdag' Hsid'].
  { run_turn. rewrite Hlog. run_turn. rewrite Hhttp. run_turn.
    rewrite bool_decide_eq_true_2, Hvbody by done. run_turn.
    rewrite Hvalid. run_turn. rewrite Htruthy. run_turn. rewrite Hsid. run_turn.
    rewrite Hgenerate. run_turn.
    rewrite bool_decide_eq_true_2 by done. cbn [subscript]. rewrite Hscript.
    run_turn. by simplify_map_eq. }
  split.
  - unfold main_download, download_dag_button, st_download_button, datetime_now.
    run_script.
    rewrite Hdag'. run_script. rewrite truthy_nonempty by done. run_script.
    rewrite Hdag'. run_script. cbn [encode_utf8]. rewrite Hsid'.
    eexists. split_and!; done.
  - rewrite main_clear_chat_run. cbn [snd].
    unfold main_download. run_script. by simplify_map_eq.
Qed.

End Download.

(** ** The further properties on concrete inputs *)

Lemma fetch_all_conversations_effect_served :
  session_state (fetch_all_conversations working_backend
                   (fresh_world working_backend)).2 !! "history"
  = Some sample_conversations.
Proof.
  destruct (fetch_all_conversations_effect working_backend
              (fresh_world working_backend)) as (_ & _ & _ & Hserved & _).
  destruct (Hserved sample_conversations) as [-> _].
  - eexists _, _, _. split_and!; reflexivity.
  - by rewrite lookup_insert_eq.
Defined.

Lemma load_conversation_switches_scenario4 :
  session_state scenario4_loaded !! "active_session" = Some (PStr "abc123")
  ∧ message_log scenario4_loaded = Some (PList (to_py <$> scenario4_log)).
Proof.
  destruct (load_conversation_switches scenario4_store (PStr "abc123")
              (PList (to_py <$> scenario4_log)) (fresh_world scenario4_store))
    as (_ & Hlog & _ & Hactive & _).
  - eexists _, _, _. split_and!; reflexivity.
  - split; [exact Hactive|exact Hlog].
Defined.

Lemma load_ignores_older_entries_patchy :
  artifact (load_conversation patchy_store (PStr "abc123")
              (fresh_world patchy_store)).2
  = Some (PStr "def process(): pass").
Proof.
  refine (proj1 (load_ignores_older_entries patchy_store (PStr "abc123")
                   (fresh_world patchy_store) [PNone; PStr "corrupted"]
                   {| message_type := "system"; content := "def process(): pass";
                      timestamp := "t0" |}
                   [ {| message_type := "user"; content := "thanks";
                        timestamp := "t1" |};
                     {| message_type := "user"; content := "bye";
                        timestamp := "t2" |} ] _ _ _)).
  - eexists _, _, _. split_and!; reflexivity.
  - split; [reflexivity|]. by exists "", "process(): pass".
  - repeat constructor; intros [? _]; discriminate.
Defined.

Lemma display_agrees_with_scan_scenario4 :
  ∃ log, message_log scenario4_loaded = Some log
         ∧ extract_artifact log = Ok (PStr "def process(): pass").
Proof.
  refine (display_agrees_with_scan scenario4_loaded
            (scenario4_log ≫= bubble) _).
  by vm_compute.
Defined.

Lemma display_renders_log_scenario4 :
  display_chat_history scenario4_loaded []
  = (Ok (),
     [ chat_message (PStr "system"); code_python (PStr "def process(): pass");
       chat_message (PStr "user"); markdown (PStr "thanks");
       chat_message (PStr "user"); markdown (PStr "bye") ]).
Proof.
  refine (display_renders_log scenario4_loaded scenario4_log _).
  reflexivity.
Defined.

(** Scenario 3 of the specification: validation answers HTTP 500, and no
    generation call is attempted. *)
Lemma generation_needs_validation_http500 :
  calls (chat_turn failing_backend "Build a daily ETL"
           (fresh_world failing_backend)).2
  = [POST_validate_input "Build a daily ETL"].
Proof.
  destruct (generation_needs_validation failing_backend "Build a daily ETL"
              (fresh_world failing_backend) [])
    as [Hcalls|(sid & (r & body & valid & Hhttp & Hstatus & _) & _)].
  - reflexivity.
  - exact Hcalls.
  - injection Hhttp as <-. discriminate.
Defined.

Lemma turn_is_confined_scenario1 :
  session_state (chat_turn working_backend "Build a daily ETL"
                   scenario4_loaded).2 !! "active_session"
  = Some (PStr "abc123").
Proof.
  refine (eq_trans
            (proj1 (turn_is_confined working_backend "Build a daily ETL"
                      scenario4_loaded) "active_session" _ _) _).
  - discriminate.
  - discriminate.
  - reflexivity.
Defined.

Lemma turn_needs_a_list_log_object :
  message_log (load_conversation object_log_store (PStr "abc123")
                 (fresh_world object_log_store)).2 = Some (PDict ∅)
  ∧ (chat_turn object_log_store "Build a daily ETL"
       (load_conversation object_log_store (PStr "abc123")
          (fresh_world object_log_store)).2).1 = Raise AttributeError.
Proof.
  split; [reflexivity|].
  refine (proj1 (turn_needs_a_list_log object_log_store "Build a daily ETL"
                   (load_conversation object_log_store (PStr "abc123")
                      (fresh_world object_log_store)).2 _)).
  intros log Hlog. change (Some (PDict ∅) = Some (PList log)) in Hlog.
  discriminate.
Defined.

Lemma turn_keeps_artifact_in_sync_scenario1 :
  in_sync (chat_turn working_backend "Build a daily ETL" scenario4_loaded).2.
Proof.
  apply (turn_keeps_artifact_in_sync working_backend "Build a daily ETL"
           scenario4_loaded).
  - exists (PList (to_py <$> scenario4_log)), (PStr "def process(): pass").
    split_and!; by vm_compute.
  - intros sid rg body script [= <-] [= <-] Hscript.
    exists "def etl(): ...". split.
    + vm_compute in Hscript. congruence.
    + by exists "", "etl(): ...".
  - intros rv body got [= <-] [= <-] [= <-]. discriminate.
Defined.


Lemma working_backend_validates (text : string) : validated working_backend text.
Proof. eexists _, _, _. split_and!; reflexivity. Qed.

Lemma turn_after_switch_scenario4 :
  calls (chat_turn working_backend "Build a daily ETL"
           (load_conversation working_backend (PStr "abc123")
              (fresh_world working_backend)).2).2
  = [ GET_chat_history (PStr "abc123");
      POST_validate_input "Build a daily ETL";
      POST_generate_dag "Build a daily ETL" (PStr "abc123") ].
Proof.
  refine (proj1 (turn_after_switch working_backend (PStr "abc123")
                   (to_py <$> scenario4_log) "Build a daily ETL"
                   (fresh_world working_backend) _ _)).
  - eexists _, _, _. split_and!; reflexivity.
  - apply working_backend_validates.
Defined.

Lemma turn_after_clear_fresh :
  calls (chat_turn working_backend "Build a daily ETL"
           (main_clear_chat working_backend scenario4_loaded).2).2
  = [ GET_chat_history (PStr "abc123");
      POST_validate_input "Build a daily ETL";
      POST_generate_dag "Build a daily ETL" (PStr "uuid-1") ].
Proof.
  refine (proj1 (turn_after_clear working_backend "Build a daily ETL"
                   scenario4_loaded _)).
  apply working_backend_validates.
Defined.

Lemma ticking_clock_on_calendar (n : nat) : on_calendar (ticking_clock n).
Proof.
  unfold on_calendar, ticking_clock. cbn.
  pose proof (Nat.mod_upper_bound n 60). lia.
Qed.

Lemma export_names_tell_seconds_apart_ticks :
  "generated_dag_20240517_120000.py" ≠ "generated_dag_20240517_120001.py"
  ∧ String.length "generated_dag_20240517_120000.py" = 32.
Proof.
  destruct (export_names_tell_seconds_apart working_backend ticking_clock
              false false
              (PStr "def etl(): ...") (PStr "def etl(): ...")
              (MkWorld (session_state scenario4_loaded) [] [] 1 0)
              (MkWorld (session_state scenario4_loaded) [] [] 1 1)
              {| label := "⬇️ Download DAG Script";
                 data := "def etl(): ...";
                 file_name := "generated_dag_20240517_120000.py";
                 mime := "text/x-python";
                 key := "download_dag_abc123" |}
              {| label := "⬇️ Download DAG Script";
                 data := "def etl(): ...";
                 file_name := "generated_dag_20240517_120001.py";
                 mime := "text/x-python";
                 key := "download_dag_abc123" |})
    as [Hlength Hnames].
  - apply ticking_clock_on_calendar.
  - apply ticking_clock_on_calendar.
  - by vm_compute.
  - by vm_compute.
  - split; [|exact Hlength].
    intros Heq. apply Hnames in Heq. discriminate.
Defined.

Lemma download_offered_for_text_scenario4 :
  (main_download working_backend ticking_clock false scenario4_loaded).1
  = Ok (Some {| label := "⬇️ Download DAG Script";
                data := "def process(): pass";
                file_name := "generated_dag_20240517_120000.py";
                mime := "text/x-python";
                key := "download_dag_abc123" |})
  ∧ session_state (main_download working_backend ticking_clock false
                     scenario4_loaded).2 !! "download_dag_abc123"
    = Some (PBool false)
  ∧ session_state (main_download working_backend ticking_clock false
                     scenario4_loaded).2 !! "generated_dag"
    = Some (PStr "def process(): pass").
Proof.
  destruct (download_offered_for_text working_backend ticking_clock false
              scenario4_loaded (PStr "def process(): pass") (PStr "abc123"))
    as (_ & Htext & _).
  - reflexivity.
  - reflexivity.
  - destruct (Htext "def process(): pass") as (Hbutton & Hstore & Hkeys).
    + reflexivity.
    + discriminate.
    + split_and!.
      * exact Hbutton.
      * rewrite Hstore. exact (lookup_insert_eq _ _ _).
      * rewrite Hkeys by (unfold session_keys; repeat constructor).
        reflexivity.
Defined.

Lemma download_follows_generation_scenario1 :
  (main_download working_backend ticking_clock false
     (main_clear_chat working_backend
        (chat_turn working_backend "Build a daily ETL"
           (fresh_world working_backend)).2).2).1
  = Ok None.
Proof.
  refine (proj2 (download_follows_generation working_backend ticking_clock
                   false (fresh_world working_backend) "Build a daily ETL" []
                   (PStr "uuid-0") {[ "dag_script" := PStr "def etl(): ..." ]}
                   "def etl(): ..." _ _ _ _ _ _)).
  - reflexivity.
  - reflexivity.
  - apply working_backend_validates.
  - reflexivity.
  - reflexivity.
  - discriminate.
Defined.
